(** * Modbus RTU relay board bridge: frame codec and response handling

    A shallow embedding of the frame builders, the CRC16 routine and the
    response handling of the three programs of the repository:

    - [Json]  : modbus_mqtt_bridge_json.py  (MQTT bridge, JSON commands)
    - [Cli]   : raw_modbus_test.py          (interactive command line)
    - [Text]  : modbus_mqtt_bridge.py       (MQTT bridge, textual commands)

    Python integers are unbounded and are modelled by [Z]; a [bytes] object
    is a [list Z] whose elements lie in [0,256); exceptions are values of
    [exn] carried by the [res] type. *)

From Stdlib Require Import ZArith List String Ascii Bool Lia.
From Stdlib Require Import DecimalString.
Import ListNotations.
Open Scope string_scope.
Open Scope list_scope.
Open Scope Z_scope.

(** ** Python values and exceptions *)

Inductive exn : Type :=
| ValueError (msg : string)
| IndexError (msg : string)
| OverflowError (msg : string).

(** Python's [str(e)]. *)
Definition exn_message (e : exn) : string :=
  match e with
  | ValueError m => m
  | IndexError m => m
  | OverflowError m => m
  end.

Inductive res (A : Type) : Type :=
| Ok (a : A)
| Raise (e : exn).
Arguments Ok {A} a.
Arguments Raise {A} e.

Definition res_bind {A B} (r : res A) (k : A -> res B) : res B :=
  match r with
  | Ok a => k a
  | Raise e => Raise e
  end.

Declare Scope res_scope.
Delimit Scope res_scope with res.
Notation "x <- c ;; k" := (res_bind c (fun x => k))
  (at level 61, c at next level, right associativity) : res_scope.

(** A byte string is a list of integers in [range(256)]. *)
Definition is_byte (b : Z) : Prop := 0 <= b < 256.
Definition is_byteb (b : Z) : bool := (0 <=? b) && (b <? 256).
Definition bytes_ok (l : list Z) : Prop := Forall is_byte l.

(** [bytes([...])]: raises ValueError unless every item is in range(256). *)
Definition bytes_of (l : list Z) : res (list Z) :=
  if forallb is_byteb l then Ok l
  else Raise (ValueError "bytes must be in range(0, 256)").

(** [b[i]] on a bytes object, for a non-negative literal index. *)
Definition index (b : list Z) (i : nat) : res Z :=
  match nth_error b i with
  | Some x => Ok x
  | None => Raise (IndexError "index out of range")
  end.

Definition len (b : list Z) : Z := Z.of_nat (List.length b).

(** [crc.to_bytes(2, byteorder='little')]. *)
Definition to_bytes2_little (n : Z) : res (list Z) :=
  if n <? 0 then Raise (OverflowError "can't convert negative int to unsigned")
  else if 65536 <=? n then Raise (OverflowError "int too big to convert")
  else Ok [Z.land n 255; Z.land (Z.shiftr n 8) 255].

(** ** Modbus constants *)

Definition WRITE_REG : Z := 0x06.
Definition READ_REG : Z := 0x03.

(** ** CRC16 (identical text in the three programs) *)

(** One pass of the inner loop body. *)
Definition crc_shift (crc : Z) : Z :=
  if Z.land crc 1 =? 0 then Z.shiftr crc 1
  else Z.lxor (Z.shiftr crc 1) 0xA001.

(** [for _ in range(n): ...] on the register. *)
Fixpoint crc_shifts (n : nat) (crc : Z) : Z :=
  match n with
  | O => crc
  | S n' => crc_shifts n' (crc_shift crc)
  end.

(** Outer loop body: [crc ^= byte] followed by the eight shifts. *)
Definition crc_byte (crc byte : Z) : Z := crc_shifts 8 (Z.lxor crc byte).

(** The register after the outer loop. *)
Definition crc_register (data : list Z) : Z := fold_left crc_byte data 0xFFFF.

Definition crc16 (data : list Z) : res (list Z) :=
  to_bytes2_little (crc_register data).

(** *** Reference reading of the checksum

    The checksum as the specification words it: a 16 bit register that
    starts at 0xFFFF; every input byte is xored into it and then, eight
    times, its least significant bit is shifted out and, when that bit was
    set, the polynomial 0xA001 is xored in; the result is the low byte
    followed by the high byte. *)

Definition ref_poly : Z := 40961.
Definition ref_init : Z := 65535.

Definition ref_bit_step (reg : Z) : Z :=
  let lsb := Z.odd reg in
  let shifted := reg / 2 in
  if lsb then Z.lxor shifted ref_poly else shifted.

Definition ref_byte_step (reg byte : Z) : Z :=
  Nat.iter 8 ref_bit_step (Z.lxor reg byte).

Fixpoint ref_register (reg : Z) (data : list Z) : Z :=
  match data with
  | [] => reg
  | b :: rest => ref_register (ref_byte_step reg b) rest
  end.

Definition ref_crc16 (data : list Z) : list Z :=
  let reg := ref_register ref_init data in
  [reg mod 256; reg / 256].

(** ** Hex dump: [' '.join(f"{x:02X}" for x in b)] *)

Definition hex_digit (d : Z) : ascii :=
  match d with
  | 0 => "0" | 1 => "1" | 2 => "2" | 3 => "3" | 4 => "4" | 5 => "5"
  | 6 => "6" | 7 => "7" | 8 => "8" | 9 => "9" | 10 => "A" | 11 => "B"
  | 12 => "C" | 13 => "D" | 14 => "E" | _ => "F"
  end%char.

(** Two upper-case hexadecimal digits of a byte. *)
Definition hex2 (x : Z) : string :=
  String (hex_digit (x / 16)) (String (hex_digit (x mod 16)) EmptyString).

Definition hexdump (b : list Z) : string :=
  String.concat " " (map hex2 b).

(** Python's [str(i)] / [f"{i}"] for an integer. *)
Definition dec (i : Z) : string := NilZero.string_of_int (Z.to_int i).

(** Python's ["\n".join(lines)]. *)
Definition newline : string := String (ascii_of_nat 10) EmptyString.
Definition join_lines (lines : list string) : string :=
  String.concat newline lines.

(** [range(a, b)]. *)
Definition range (a b : Z) : list Z :=
  map (fun k => a + Z.of_nat k) (seq 0 (Z.to_nat (b - a))).

(** ** JSON values handed to [json.dumps] *)

#[local] Unset Elimination Schemes.
Inductive json : Type :=
| JNone
| JInt (z : Z)
| JStr (s : string)
| JList (items : list json)
| JDict (fields : list (string * json)).
#[local] Set Elimination Schemes.

(** What is handed to [client.publish] on the response topic. *)
Inductive payload : Type :=
| PJson (obj : json)
| PText (text : string).

(** ** The world: serial line, console and message bus

    The device is scripted: [script] holds the reply it gives to each
    successive written frame (an empty reply, or an exhausted script, is a
    device that stays silent during the read window).  [rx] is the input
    buffer of the port, [tx] the frames written so far, [stdout] the lines
    printed and [published] the messages published. *)

Record World : Type := mkWorld {
  script : list (list Z);
  rx : list Z;
  tx : list (list Z);
  stdout : list string;
  published : list payload
}.

Definition IO (A : Type) : Type := World -> res A * World.

Definition ret {A} (a : A) : IO A := fun w => (Ok a, w).

Definition bind {A B} (m : IO A) (k : A -> IO B) : IO B :=
  fun w => match m w with
           | (Ok a, w') => k a w'
           | (Raise e, w') => (Raise e, w')
           end.

(** A pure, possibly raising, computation inside [IO]. *)
Definition lift {A} (r : res A) : IO A := fun w => (r, w).

Declare Scope io_scope.
Delimit Scope io_scope with io.
Notation "x <- c ;; k" := (bind c (fun x => k))
  (at level 61, c at next level, right associativity) : io_scope.
Notation "c ;; k" := (bind c (fun _ => k))
  (at level 61, right associativity) : io_scope.

(** [try: body except Exception as e: handler(e)]. *)
Definition try_except (body : IO unit) (handler : exn -> IO unit) : IO unit :=
  fun w => match body w with
           | (Ok u, w') => (Ok u, w')
           | (Raise e, w') => handler e w'
           end.

(** [for x in items: acc = body(acc, x)], the loop carrying the local
    variables the body updates. *)
Fixpoint for_acc {A S} (items : list A) (acc : S) (body : S -> A -> IO S)
  : IO S :=
  match items with
  | [] => ret acc
  | x :: rest => bind (body acc x) (fun acc' => for_acc rest acc' body)
  end.

Definition for_each {A} (items : list A) (body : A -> IO unit) : IO unit :=
  for_acc items tt (fun _ x => body x).

(** [print(...)]: one line on the console. *)
Definition print (line : string) : IO unit :=
  fun w => (Ok tt, mkWorld (script w) (rx w) (tx w) (stdout w ++ [line])
                           (published w)).

(** [time.sleep(...)]: the reply of the device, if any, is in the buffer
    by the time the read returns. *)
Definition sleep : IO unit := ret tt.

(** [ser.reset_input_buffer()]. *)
Definition ser_reset_input_buffer : IO unit :=
  fun w => (Ok tt, mkWorld (script w) [] (tx w) (stdout w) (published w)).

(** [ser.write(frame)]: the frame goes out and the scripted reply comes in. *)
Definition ser_write (frame : list Z) : IO unit :=
  fun w => (Ok tt, mkWorld (tl (script w)) (rx w ++ hd [] (script w))
                           (tx w ++ [frame]) (stdout w) (published w)).

(** [ser.read(n)]: at most [n] bytes of what the buffer holds. *)
Definition ser_read (n : nat) : IO (list Z) :=
  fun w => (Ok (firstn n (rx w)),
            mkWorld (script w) (skipn n (rx w)) (tx w) (stdout w)
                    (published w)).

(** [client.publish("george/test/board/response", ..., qos=1)]. *)
Definition publish (p : payload) : IO unit :=
  fun w => (Ok tt, mkWorld (script w) (rx w) (tx w) (stdout w)
                           (published w ++ [p])).

(** The request and response cycle every handler repeats:
    reset the input buffer, write the frame, sleep, read up to 256 bytes. *)
Definition exchange (frame : list Z) : IO (list Z) :=
  (ser_reset_input_buffer ;; ser_write frame ;; sleep ;; ser_read 256)%io.

(** The commands once the inbound message has been taken apart; reading
    the fields out of the message is the work of the command parser. *)
Inductive command : Type :=
| Output (channel : Z) (state : string)
| OutputAll (state : string)
| Input (channel : Z)
| Status (target : string)
| OtherCommand.

(** ** modbus_mqtt_bridge_json.py *)

Module Json.

Local Open Scope res_scope.

Definition build_relay_command (device channel : Z) (action : string)
  : res (list Z) :=
  if (channel <? 1) || (8 <? channel) then
    Raise (ValueError "channel must be 1-8")
  else
    data <- (if String.eqb action "on" then Ok (0x01, 0x00)
             else if String.eqb action "off" then Ok (0x02, 0x00)
             else Raise (ValueError "action must be 'on' or 'off'")) ;;
    let '(data_hi, data_lo) := data in
    frame <- bytes_of [device; WRITE_REG; 0x00; channel; data_hi; data_lo] ;;
    crc <- crc16 frame ;;
    Ok (frame ++ crc).

Definition build_read_input (device input_num : Z) : res (list Z) :=
  let addr := 0x0080 + input_num in
  frame <- bytes_of [device; READ_REG;
                     Z.land (Z.shiftr addr 8) 0xFF; Z.land addr 0xFF;
                     0x00; 0x01] ;;
  crc <- crc16 frame ;;
  Ok (frame ++ crc).

Definition build_read_output (device output_num : Z) : res (list Z) :=
  frame <- bytes_of [device; READ_REG; 0x00; output_num; 0x00; 0x01] ;;
  crc <- crc16 frame ;;
  Ok (frame ++ crc).

(** The conditional expression of the two read branches:
    ["on" if resp and resp[4] == 1 else "off"]. *)
Definition state_of (resp : list Z) : res string :=
  match resp with
  | [] => Ok "off"
  | _ :: _ => b <- index resp 4 ;; Ok (if b =? 1 then "on" else "off")
  end.

(** The conditional expression of the [output_all] branch:
    [hexdump(resp) if resp else None]. *)
Definition response_field (resp : list Z) : json :=
  match resp with
  | [] => JNone
  | _ :: _ => JStr (hexdump resp)
  end.

Local Close Scope res_scope.
Local Open Scope io_scope.

Definition publish_json (obj : json) : IO unit := publish (PJson obj).

Section Bridge.

Variable device_selected : Z.

Definition output_all_body (state : string) (results : list json) (i : Z)
  : IO (list json) :=
  frame <- lift (build_relay_command device_selected i state) ;;
  resp <- exchange frame ;;
  ret (results ++
       [JDict [("channel", JInt i); ("response", response_field resp)]]).

Definition status_body (target : string) (states : list json) (i : Z)
  : IO (list json) :=
  frame <- lift (if String.eqb target "inputs"
                 then build_read_input device_selected i
                 else build_read_output device_selected i) ;;
  resp <- exchange frame ;;
  st <- lift (state_of resp) ;;
  ret (states ++ [JDict [("channel", JInt i); ("state", JStr st)]]).

Definition process_command (data : command) : IO unit :=
  try_except
    (match data with
     | Output ch state =>
         frame <- lift (build_relay_command device_selected ch state) ;;
         resp <- exchange frame ;;
         publish_json (JDict [("result", JStr "ok");
                              ("cmd", JStr "output");
                              ("channel", JInt ch);
                              ("state", JStr state);
                              ("response", JStr (hexdump resp))])
     | OutputAll state =>
         results <- for_acc (range 1 9) [] (output_all_body state) ;;
         publish_json (JDict [("result", JStr "ok");
                              ("cmd", JStr "output_all");
                              ("state", JStr state);
                              ("outputs", JList results)])
     | Input ch =>
         frame <- lift (build_read_input device_selected ch) ;;
         resp <- exchange frame ;;
         st <- lift (state_of resp) ;;
         publish_json (JDict [("cmd", JStr "input");
                              ("input", JInt ch);
                              ("state", JStr st);
                              ("raw", JStr (hexdump resp))])
     | Status target =>
         states <- for_acc (range 1 9) [] (status_body target) ;;
         publish_json (JDict [("cmd", JStr "status");
                              ("target", JStr target);
                              ("states", JList states)])
     | OtherCommand =>
         publish_json (JDict [("result", JStr "error");
                              ("message", JStr "Unknown command")])
     end)
    (fun e => publish_json (JDict [("result", JStr "error");
                                   ("message", JStr (exn_message e))])).

End Bridge.

End Json.

(** ** raw_modbus_test.py

    The bodies of the branches of the interactive loop of [main]; splitting
    the typed line into words and numbers is the work of the command
    parser. *)

Module Cli.

Local Open Scope io_scope.

Definition build_relay_command (device channel : Z) (action : string)
  : IO (list Z) :=
  let reg_hi := 0x00 in
  let reg_lo := channel in
  data <- lift (if String.eqb action "on" then Ok (0x01, 0x00)
                else if String.eqb action "off" then Ok (0x02, 0x00)
                else Raise (ValueError "action must be 'on' or 'off'")) ;;
  let '(data_hi, data_lo) := data in
  (if (8 <? channel) || (channel <? 1)
   then lift (Raise (ValueError "channel must be 1-8"))
   else ret tt) ;;
  frame_wo_crc <- lift (bytes_of [device; WRITE_REG; reg_hi; reg_lo;
                                  data_hi; data_lo]) ;;
  print ("Frame without CRC: " ++ hexdump frame_wo_crc)%string ;;
  crc <- lift (crc16 frame_wo_crc) ;;
  ret (frame_wo_crc ++ crc).

Definition build_read_input (device input_num : Z) : res (list Z) :=
  let addr := 0x0080 + input_num in
  (frame_wo_crc <- bytes_of [device; READ_REG;
                             Z.land (Z.shiftr addr 8) 0xFF; Z.land addr 0xFF;
                             0x00; 0x01] ;;
   crc <- crc16 frame_wo_crc ;;
   Ok (frame_wo_crc ++ crc))%res.

Definition builst_read_output (device output_num : Z) : res (list Z) :=
  let addr := output_num + 1 in
  (frame_wo_crc <- bytes_of [device; READ_REG;
                             Z.land (Z.shiftr addr 8) 0xFF; Z.land addr 0xFF;
                             0x00; 0x01] ;;
   crc <- crc16 frame_wo_crc ;;
   Ok (frame_wo_crc ++ crc))%res.

Section Loop.

Variable device_selected : Z.

(** [out <n> on/off] *)
Definition do_out (ch : Z) (state : string) : IO unit :=
  frame <- build_relay_command device_selected ch state ;;
  resp <- exchange frame ;;
  print ("<- Response: " ++ hexdump resp)%string.

(** [on all] and [off all]: what is done with the bytes read; [word] is
    ON or OFF. *)
Definition report_write (word : string) (i : Z) (resp : list Z) : IO unit :=
  print ("Channel " ++ dec i ++ " " ++ word ++ " response: "
         ++ hexdump resp)%string.

(** [on all] and [off all] *)
Definition do_all (action word : string) : IO unit :=
  for_each (range 1 9) (fun i =>
    frame <- build_relay_command device_selected i action ;;
    resp <- exchange frame ;;
    report_write word i resp).

(** [in <n>]: what is done with the bytes read. *)
Definition report_in (inp : Z) (resp : list Z) : IO unit :=
  let size := len resp in
  if 0 <? size then
    print ("<- Response: " ++ hexdump resp)%string ;;
    b <- lift (index resp 4) ;;
    if b =? 1 then print ("Input " ++ dec inp ++ " is ON")%string
    else print ("Input " ++ dec inp ++ " is OFF")%string
  else
    print "<- No response (timeout).".

(** [in <n>] *)
Definition do_in (inp : Z) : IO unit :=
  frame <- lift (build_read_input device_selected inp) ;;
  resp <- exchange frame ;;
  report_in inp resp.

(** One pass of the loops of [status out] and [status inp]; [what] is
    "Output" or "Input". *)
Definition report (what : string) (i : Z) (resp : list Z) : IO unit :=
  let size := len resp in
  if 0 <? size then
    b <- lift (index resp 4) ;;
    if b =? 1 then print (what ++ " " ++ dec i ++ " is ON")%string
    else print (what ++ " " ++ dec i ++ " is OFF")%string
  else
    print (what ++ " " ++ dec i ++ ": No response (timeout).")%string.

(** [status out] *)
Definition do_status_out : IO unit :=
  for_each (range 1 9) (fun i =>
    frame <- lift (builst_read_output device_selected i) ;;
    resp <- exchange frame ;;
    report "Output" i resp).

(** [status inp] *)
Definition do_status_inp : IO unit :=
  for_each (range 1 9) (fun i =>
    frame <- lift (build_read_input device_selected i) ;;
    resp <- exchange frame ;;
    report "Input" i resp).

End Loop.

End Cli.

(** ** modbus_mqtt_bridge.py

    The bodies of the branches of [process_command]; [messages] is the
    local list as it stands when the branch is entered. *)

Module Text.

Local Open Scope io_scope.

Definition build_relay_command := Cli.build_relay_command.

Definition build_read_input := Cli.build_read_input.

Definition builst_read_output (device output_num : Z) : res (list Z) :=
  let addr := output_num in
  (frame_wo_crc <- bytes_of [device; READ_REG;
                             Z.land (Z.shiftr addr 8) 0xFF; Z.land addr 0xFF;
                             0x00; 0x01] ;;
   crc <- crc16 frame_wo_crc ;;
   Ok (frame_wo_crc ++ crc))%res.

(** [print_pubish] applied to string arguments. *)
Definition print_pubish (args : list string) : IO unit :=
  let text := String.concat " " args in
  publish (PText text) ;;
  print ("Publishing message: " ++ text)%string.

Section Bridge.

Variable device_selected : Z.

(** [out <n> on/off] *)
Definition do_out (ch : Z) (state : string) : IO unit :=
  print (dec device_selected ++ " " ++ dec ch ++ " " ++ state)%string ;;
  sleep ;;
  frame <- build_relay_command device_selected ch state ;;
  resp <- exchange frame ;;
  print_pubish ["<- Response:"; hexdump resp].

(** [on all] and [off all]: what is appended to [messages] for the bytes
    read.  The two branches differ in the action, in the word ON/OFF and
    in the colon of the timeout message ([colon] is empty for [on all] and
    a colon for [off all]). *)
Definition record_write (word colon : string) (messages : list string)
           (i : Z) (resp : list Z) : list string :=
  if 0 <? len resp then
    messages ++ [("Channel " ++ dec i ++ " " ++ word ++ " response: "
                  ++ hexdump resp)%string]
  else
    messages ++ [("Channel " ++ dec i ++ colon
                  ++ " No response (timeout)")%string].

(** [on all] and [off all] *)
Definition do_all (action word colon : string) (messages : list string)
  : IO unit :=
  messages <- for_acc (range 1 9) messages (fun messages i =>
    frame <- build_relay_command device_selected i action ;;
    resp <- exchange frame ;;
    ret (record_write word colon messages i resp)) ;;
  let final_text := join_lines messages in
  print_pubish [final_text].

(** [in <n>]: what is done with the bytes read. *)
Definition report_in (inp : Z) (resp : list Z) : IO unit :=
  if 0 <? len resp then
    b <- lift (index resp 4) ;;
    let word := if b =? 1 then "ON" else "OFF" in
    print_pubish [("Input " ++ dec inp ++ " is " ++ word)%string]
  else
    print_pubish ["<- No response (timeout)."].

(** [in <n>] *)
Definition do_in (inp : Z) : IO unit :=
  frame <- lift (build_read_input device_selected inp) ;;
  resp <- exchange frame ;;
  report_in inp resp.

(** One pass of the loops of [status out] and [status inp]; both say
    "Input". *)
Definition report (messages : list string) (i : Z) (resp : list Z)
  : IO (list string) :=
  let size := len resp in
  if 0 <? size then
    b <- lift (index resp 4) ;;
    if b =? 1 then ret (messages ++ [("Input " ++ dec i ++ " is ON")%string])
    else ret (messages ++ [("Input " ++ dec i ++ " is OFF")%string])
  else
    ret (messages ++ [("Input " ++ dec i ++ ": No response (timeout)")%string]).

(** [status out] *)
Definition do_status_out (messages : list string) : IO unit :=
  messages <- for_acc (range 1 9) messages (fun messages i =>
    frame <- lift (builst_read_output device_selected i) ;;
    resp <- exchange frame ;;
    report messages i resp) ;;
  let final_text := join_lines messages in
  print_pubish [final_text].

(** [status inp] *)
Definition do_status_inp (messages : list string) : IO unit :=
  messages <- for_acc (range 1 9) messages (fun messages i =>
    frame <- lift (build_read_input device_selected i) ;;
    resp <- exchange frame ;;
    report messages i resp) ;;
  let final_text := join_lines messages in
  print_pubish [final_text].

End Bridge.

End Text.

(** ** Hex strings and the example frames

    [hexstr_to_bytes] and [EXAMPLES] have the same text in
    raw_modbus_test.py and modbus_mqtt_bridge.py; the loop that sends the
    examples closes [main] of raw_modbus_test.py. *)

(** [s.replace(c, '')] for a one-character [c]. *)
Fixpoint remove_char (c : ascii) (s : string) : string :=
  match s with
  | EmptyString => EmptyString
  | String x rest =>
      if Ascii.eqb x c then remove_char c rest
      else String x (remove_char c rest)
  end.

(** The white space [bytes.fromhex] skips: space, tab, line feed,
    vertical tab, form feed, carriage return. *)
Definition is_space (c : ascii) : bool :=
  let n := nat_of_ascii c in
  Nat.eqb n 32 || (Nat.leb 9 n && Nat.leb n 13).

(** The value of a hexadecimal digit, of either case. *)
Definition digit_value (c : ascii) : option Z :=
  let n := Z.of_nat (nat_of_ascii c) in
  if (48 <=? n) && (n <=? 57) then Some (n - 48)
  else if (65 <=? n) && (n <=? 70) then Some (n - 55)
  else if (97 <=? n) && (n <=? 102) then Some (n - 87)
  else None.

Definition fromhex_error (pos : Z) : exn :=
  ValueError ("non-hexadecimal number found in fromhex() arg at position "
              ++ dec pos)%string.

(** [bytes.fromhex] from position [pos] on: white space is skipped before
    a byte, the two digits of a byte stand side by side. *)
Fixpoint fromhex_from (pos : Z) (s : string) : res (list Z) :=
  match s with
  | EmptyString => Ok []
  | String c rest =>
      if is_space c then fromhex_from (pos + 1) rest
      else
        match digit_value c with
        | None => Raise (fromhex_error pos)
        | Some top =>
            match rest with
            | EmptyString => Raise (fromhex_error (pos + 1))
            | String c2 rest2 =>
                match digit_value c2 with
                | None => Raise (fromhex_error (pos + 1))
                | Some bot =>
                    res_bind (fromhex_from (pos + 2) rest2)
                             (fun tail => Ok (Z.shiftl top 4 + bot :: tail))
                end
            end
        end
  end.

(** A character of the ASCII range. *)
Definition is_ascii (c : ascii) : bool := Nat.ltb (nat_of_ascii c) 128.

(** The position of the first character outside the ASCII range, counted
    from [pos]. *)
Fixpoint first_non_ascii (pos : Z) (s : string) : option Z :=
  match s with
  | EmptyString => None
  | String c rest =>
      if is_ascii c then first_non_ascii (pos + 1) rest else Some pos
  end.

(** [bytes.fromhex(s)]: a text that is not all ASCII is refused at its
    first such character before any digit is read. *)
Definition fromhex (s : string) : res (list Z) :=
  match first_non_ascii 0 s with
  | Some pos => Raise (fromhex_error pos)
  | None => fromhex_from 0 s
  end.

Definition hexstr_to_bytes (s : string) : res (list Z) :=
  let s := remove_char " "%char s in
  let s := remove_char (ascii_of_nat 10) s in
  fromhex s.

(** The dictionary [EXAMPLES], in insertion order. *)
Definition EXAMPLES : list (string * string) :=
  [("chan1_open", "01 06 00 01 01 00 D9 9A");
   ("chan1_close", "01 06 00 01 02 00 D9 6A");
   ("read_ch1", "01 03 00 01 00 01 D5 CA");
   ("remove realationship", "01 06 00 FD 00 00 18 3A")].

(** One pass of the loop over the examples. *)
Definition send_example (example : string * string) : IO unit :=
  (let '(name, hexframe) := example in
   data <- lift (hexstr_to_bytes hexframe) ;;
   print (newline ++ "-> Sending example: " ++ name ++ " " ++ hexdump data)%string ;;
   resp <- exchange data ;;
   match resp with
   | _ :: _ => print ("<- Raw response: " ++ hexdump resp)%string
   | [] => print "<- No response (timeout)."
   end)%io.

(** [for name, hexframe in EXAMPLES.items(): ...] *)
Definition send_examples : IO unit := for_each EXAMPLES send_example.

(** Whether a computation returned rather than raised. *)
Definition succeeds {A} (r : res A) : bool :=
  match r with
  | Ok _ => true
  | Raise _ => false
  end.

(** ** Vocabulary of the statements *)

(** The register fits sixteen bits. *)
Definition reg_ok (crc : Z) : Prop := 0 <= crc < 65536.

(** The two checksum bytes of a frame body. *)
Definition crc_lo (body : list Z) : Z := crc_register body mod 256.

Definition crc_hi (body : list Z) : Z := crc_register body / 256.

(** The data bytes the relay command carries for an action. *)
Definition action_data (action : string) : Z * Z :=
  if String.eqb action "on" then (0x01, 0x00) else (0x02, 0x00).

(** The body of a relay write request. *)
Definition relay_body (device channel : Z) (action : string) : list Z :=
  [device; 0x06; 0x00; channel; fst (action_data action); snd (action_data action)].

(** The body of a single-register read request. *)
Definition read_body (device addr_hi addr_lo : Z) : list Z :=
  [device; 0x03; addr_hi; addr_lo; 0x00; 0x01].

(** The world in which nothing has happened yet and the device is silent. *)
Definition quiet_world : World := mkWorld [] [] [] [] [].

(** The two errors [build_relay_command] raises. *)
Definition channel_error : exn := ValueError "channel must be 1-8".

Definition action_error : exn := ValueError "action must be 'on' or 'off'".

(** The world after some more lines were printed. *)
Definition with_stdout (w : World) (lines : list string) : World :=
  mkWorld (script w) (rx w) (tx w) (stdout w ++ lines) (published w).

(** The world after [print_pubish] was given one text. *)
Definition with_text (w : World) (text : string) : World :=
  mkWorld (script w) (rx w) (tx w)
          (stdout w ++ [("Publishing message: " ++ text)%string])
          (published w ++ [PText text]).

(** What the interactive program prints for a byte at offset 4. *)
Definition on_off_line (what : string) (i b : Z) : string :=
  if b =? 1 then (what ++ " " ++ dec i ++ " is ON")%string
  else (what ++ " " ++ dec i ++ " is OFF")%string.

(** The error of [resp[4]] on a buffer of fewer than five bytes. *)
Definition index_error : exn := IndexError "index out of range".

(** A device that answers the first request with three bytes. *)
Definition short_reply_world : World :=
  mkWorld [[0x01; 0x03; 0x02]] [] [] [] [].

(** The outcome of one read cycle. *)
Inductive outcome : Type := On | Off | Timeout.

Definition outcome_of (resp : list Z) : outcome :=
  match resp with
  | [] => Timeout
  | _ :: _ => if nth 4 resp 0 =? 1 then On else Off
  end.

(** A response the read handling can take: none at all, or at least the
    five bytes that reach offset 4. *)
Definition decodable (resp : list Z) : Prop :=
  resp = [] \/ (5 <= List.length resp)%nat.

(** What the port hands to the first [n] cycles of a poll: each cycle
    takes the next scripted reply, cut at 256 bytes. *)
Fixpoint poll_replies (n : nat) (scr : list (list Z)) : list (list Z) :=
  match n with
  | O => []
  | S n' => firstn 256 (hd [] scr) :: poll_replies n' (tl scr)
  end.

(** The JSON bridge has two states only: no reply reads as off. *)
Definition json_state (o : outcome) : string :=
  match o with
  | On => "on"
  | Off => "off"
  | Timeout => "off"
  end.

(** The entry of the JSON bridge's [states] list for a channel and the
    bytes read back for it. *)
Definition json_entry (slot : Z * list Z) : json :=
  JDict [("channel", JInt (fst slot));
         ("state", JStr (json_state (outcome_of (snd slot))))].

(** The line the interactive program prints for a channel and the bytes
    read back for it. *)
Definition cli_line (what : string) (slot : Z * list Z) : string :=
  match outcome_of (snd slot) with
  | On => (what ++ " " ++ dec (fst slot) ++ " is ON")%string
  | Off => (what ++ " " ++ dec (fst slot) ++ " is OFF")%string
  | Timeout => (what ++ " " ++ dec (fst slot) ++ ": No response (timeout).")%string
  end.

(** The frame the JSON bridge's status loop builds for a channel. *)
Definition json_status_frame (device : Z) (target : string) (i : Z)
  : res (list Z) :=
  if String.eqb target "inputs" then Json.build_read_input device i
  else Json.build_read_output device i.

(** Eight replies: channels 1 and 4 on, channel 3 silent, the others off. *)
Definition reply_on : list Z := [0x01; 0x03; 0x02; 0x00; 0x01].

Definition reply_off : list Z := [0x01; 0x03; 0x02; 0x00; 0x00].

Definition channel_3_silent : World :=
  mkWorld [reply_on; reply_off; []; reply_on;
           reply_off; reply_off; reply_off; reply_off] [] [] [] [].

(** Two worlds that differ by some printed lines only (and possibly by
    what the input buffer holds). *)
Definition only_printed (w w' : World) (lines : list string) : Prop :=
  script w' = script w /\ tx w' = tx w /\ published w' = published w /\
  stdout w' = stdout w ++ lines.

(** The shape of the loops over the channels: build a frame, exchange it
    with the device, deal with the bytes read. *)
Section PollLoopShape.

Variable S : Type.
Variable build : Z -> IO (list Z).
Variable finish : S -> Z -> list Z -> IO S.
Variable build_lines : Z -> list string.
Variable state_after : S -> Z -> list Z -> S.
Variable finish_lines : S -> Z -> list Z -> list string.

Definition poll_body (s : S) (i : Z) : IO S :=
  bind (build i) (fun frame =>
  bind (exchange frame) (fun resp => finish s i resp)).

(** The loop variable after the slots (channel, bytes read) were dealt
    with, and the lines printed on the way. *)
Fixpoint poll_state (s : S) (slots : list (Z * list Z)) : S :=
  match slots with
  | [] => s
  | (i, resp) :: rest => poll_state (state_after s i resp) rest
  end.

Fixpoint poll_lines (s : S) (slots : list (Z * list Z)) : list string :=
  match slots with
  | [] => []
  | (i, resp) :: rest =>
      build_lines i ++ finish_lines s i resp
      ++ poll_lines (state_after s i resp) rest
  end.

End PollLoopShape.

Arguments poll_body {S} build finish s i.
Arguments poll_state {S} state_after s slots.
Arguments poll_lines {S} build_lines state_after finish_lines s slots.

(** A computation that neither publishes nor prints, whether it returns
    or raises. *)
Definition quiet_run {A} (m : IO A) : Prop :=
  forall w, published (snd (m w)) = published w /\
            stdout (snd (m w)) = stdout w.

(** A computation that either returns after publishing one JSON message
    or raises without having published; it prints nothing. *)
Definition answers_once (m : IO unit) : Prop :=
  forall w,
    (exists w' msg,
        m w = (Ok tt, w') /\
        published w' = published w ++ [PJson msg] /\
        stdout w' = stdout w) \/
    (exists e w',
        m w = (Raise e, w') /\
        published w' = published w /\
        stdout w' = stdout w).

(** The frame of a relay write. *)
Definition relay_frame (device channel : Z) (action : string) : list Z :=
  relay_body device channel action
  ++ [crc_lo (relay_body device channel action);
      crc_hi (relay_body device channel action)].


(** The line [build_relay_command] prints in the interactive program and
    in the textual bridge. *)
Definition frame_line (device : Z) (action : string) (channel : Z) : string :=
  ("Frame without CRC: " ++ hexdump (relay_body device channel action))%string.

(** The line the textual bridge records for a channel in [on all] and
    [off all]. *)
Definition text_all_line (word colon : string) (slot : Z * list Z) : string :=
  if 0 <? len (snd slot) then
    ("Channel " ++ dec (fst slot) ++ " " ++ word ++ " response: "
     ++ hexdump (snd slot))%string
  else
    ("Channel " ++ dec (fst slot) ++ colon ++ " No response (timeout)")%string.

(** The line the textual bridge records for a channel in its status
    polls. *)
Definition text_status_line (slot : Z * list Z) : string :=
  match outcome_of (snd slot) with
  | On => ("Input " ++ dec (fst slot) ++ " is ON")%string
  | Off => ("Input " ++ dec (fst slot) ++ " is OFF")%string
  | Timeout => ("Input " ++ dec (fst slot) ++ ": No response (timeout)")%string
  end.

(** The frame of a read request for a register address. *)
Definition addr_frame (device addr : Z) : list Z :=
  read_body device (Z.land (Z.shiftr addr 8) 0xFF) (Z.land addr 0xFF)
  ++ [crc_lo (read_body device (Z.land (Z.shiftr addr 8) 0xFF)
                        (Z.land addr 0xFF));
      crc_hi (read_body device (Z.land (Z.shiftr addr 8) 0xFF)
                        (Z.land addr 0xFF))].

(** The digits of a byte string side by side, without separators. *)
Fixpoint hex_digits (b : list Z) : string :=
  match b with
  | [] => EmptyString
  | x :: rest => (hex2 x ++ hex_digits rest)%string
  end.

(** The inputs for which [build_relay_command] returns a frame. *)
Definition relay_valid (device channel : Z) (action : string) : bool :=
  is_byteb device && ((1 <=? channel) && (channel <=? 8))
  && (String.eqb action "on" || String.eqb action "off").

(** The list [messages] of the textual bridge's [process_command] when
    the branches are reached: it starts with one line naming the command
    when the command is one of those the bridge knows. *)
Definition initial_messages (cmd : string) : list string :=
  if String.eqb cmd "on all" || String.eqb cmd "off all"
     || String.prefix "out " cmd || String.prefix "in " cmd
     || String.prefix "status " cmd
  then [("Processing command: " ++ cmd)%string]
  else [].

(** * Properties *)

(** ** Bit-level facts about the register *)

Lemma lxor_below_pow2 (n a b : Z) :
  0 <= n -> 0 <= a < 2 ^ n -> 0 <= b < 2 ^ n -> 0 <= Z.lxor a b < 2 ^ n.
Proof.
  intros Hn Ha Hb.
  assert (Hnn : 0 <= Z.lxor a b) by (apply Z.lxor_nonneg; lia).
  split; [exact Hnn|].
  destruct (Z.eq_dec (Z.lxor a b) 0) as [E|E].
  - rewrite E. apply Z.pow_pos_nonneg; lia.
  - assert (Hpos : 0 < n).
    { destruct (Z.eq_dec n 0) as [->|]; [|lia].
      change (2 ^ 0) with 1 in *.
      assert (a = 0) by lia. assert (b = 0) by lia. subst.
      contradiction E. reflexivity. }
    apply Z.log2_lt_pow2; [lia|].
    eapply Z.le_lt_trans; [apply Z.log2_lxor; lia|].
    apply Z.max_lub_lt.
    + destruct (Z.eq_dec a 0) as [->|Na]; [simpl; lia|].
      apply Z.log2_lt_pow2; lia.
    + destruct (Z.eq_dec b 0) as [->|Nb]; [simpl; lia|].
      apply Z.log2_lt_pow2; lia.
Qed.

Lemma shiftr1_half (crc : Z) : Z.shiftr crc 1 = crc / 2.
Proof. rewrite Z.shiftr_div_pow2 by lia. reflexivity. Qed.

Lemma crc_shift_ok (crc : Z) : reg_ok crc -> reg_ok (crc_shift crc).
Proof.
  unfold reg_ok, crc_shift. intros H.
  assert (Hh : 0 <= Z.shiftr crc 1 < 32768).
  { rewrite shiftr1_half. split.
    - apply Z.div_pos; lia.
    - apply Z.div_lt_upper_bound; lia. }
  destruct (Z.land crc 1 =? 0).
  - lia.
  - apply (lxor_below_pow2 16); lia.
Qed.

Lemma crc_shifts_ok (n : nat) : forall crc, reg_ok crc -> reg_ok (crc_shifts n crc).
Proof.
  induction n as [|n IH]; intros crc H; simpl.
  - exact H.
  - apply IH, crc_shift_ok, H.
Qed.

Lemma crc_xor_ok (crc byte : Z) :
  reg_ok crc -> is_byte byte -> reg_ok (Z.lxor crc byte).
Proof.
  unfold reg_ok, is_byte. intros Hc Hb.
  apply (lxor_below_pow2 16); lia.
Qed.

Lemma crc_byte_ok (crc byte : Z) :
  reg_ok crc -> is_byte byte -> reg_ok (crc_byte crc byte).
Proof.
  intros Hc Hb. unfold crc_byte. apply crc_shifts_ok, crc_xor_ok; assumption.
Qed.

Lemma fold_crc_byte_ok (data : list Z) :
  forall crc, reg_ok crc -> bytes_ok data -> reg_ok (fold_left crc_byte data crc).
Proof.
  induction data as [|b data IH]; intros crc Hc Hd; simpl.
  - exact Hc.
  - inversion Hd; subst. apply IH; [apply crc_byte_ok|]; assumption.
Qed.

Lemma crc_register_ok (data : list Z) : bytes_ok data -> reg_ok (crc_register data).
Proof.
  intros Hd. unfold crc_register. apply fold_crc_byte_ok; [|exact Hd].
  unfold reg_ok. lia.
Qed.

Lemma to_bytes2_little_ok (n : Z) :
  reg_ok n -> to_bytes2_little n = Ok [n mod 256; n / 256].
Proof.
  unfold reg_ok, to_bytes2_little. intros H.
  destruct (Z.ltb_spec n 0); [lia|].
  destruct (Z.leb_spec 65536 n); [lia|].
  change 255 with (Z.ones 8).
  rewrite !Z.land_ones by lia.
  rewrite Z.shiftr_div_pow2 by lia.
  change (2 ^ 8) with 256.
  rewrite (Z.mod_small (n / 256)); [reflexivity|].
  split; [apply Z.div_pos; lia | apply Z.div_lt_upper_bound; lia].
Qed.

(** On a byte string the checksum is the low byte then the high byte of
    the final register. *)
Lemma crc16_value (data : list Z) :
  bytes_ok data ->
  crc16 data = Ok [crc_register data mod 256; crc_register data / 256].
Proof.
  intros Hd. unfold crc16. apply to_bytes2_little_ok, crc_register_ok, Hd.
Qed.

Lemma crc16_two_bytes (data : list Z) :
  bytes_ok data ->
  exists lo hi, crc16 data = Ok [lo; hi] /\ is_byte lo /\ is_byte hi.
Proof.
  intros Hd. pose proof (crc_register_ok data Hd) as Hr.
  exists (crc_register data mod 256), (crc_register data / 256).
  split; [apply crc16_value, Hd|].
  unfold reg_ok in Hr. unfold is_byte. split.
  - apply Z.mod_pos_bound; lia.
  - split; [apply Z.div_pos; lia | apply Z.div_lt_upper_bound; lia].
Qed.

(** ** The code against the reference reading *)

Lemma crc_shift_ref (crc : Z) : crc_shift crc = ref_bit_step crc.
Proof.
  unfold crc_shift, ref_bit_step, ref_poly.
  rewrite shiftr1_half.
  change 1 with (Z.ones 1) at 1. rewrite Z.land_ones by lia.
  change (2 ^ 1) with 2.
  rewrite Zmod_odd.
  destruct (Z.odd crc); reflexivity.
Qed.

Lemma crc_shifts_ref (n : nat) :
  forall crc, crc_shifts n crc = Nat.iter n ref_bit_step crc.
Proof.
  induction n as [|n IH]; intros crc.
  - reflexivity.
  - cbn [crc_shifts]. rewrite IH, crc_shift_ref.
    symmetry. apply Nat.iter_succ_r.
Qed.

Lemma crc_byte_ref (crc byte : Z) : crc_byte crc byte = ref_byte_step crc byte.
Proof. unfold crc_byte, ref_byte_step. apply crc_shifts_ref. Qed.

Lemma fold_crc_byte_ref (data : list Z) :
  forall crc, fold_left crc_byte data crc = ref_register crc data.
Proof.
  induction data as [|b data IH]; intros crc; simpl.
  - reflexivity.
  - rewrite crc_byte_ref. apply IH.
Qed.

Lemma crc_register_ref (data : list Z) :
  crc_register data = ref_register ref_init data.
Proof. apply fold_crc_byte_ref. Qed.

(** ** Byte strings and framing *)

Lemma is_byteb_true (b : Z) : is_byte b -> is_byteb b = true.
Proof.
  unfold is_byte, is_byteb. intros H.
  apply andb_true_intro. split; [apply Z.leb_le | apply Z.ltb_lt]; lia.
Qed.

Lemma bytes_of_ok (l : list Z) : bytes_ok l -> bytes_of l = Ok l.
Proof.
  intros H. unfold bytes_of.
  replace (forallb is_byteb l) with true; [reflexivity|].
  symmetry. apply forallb_forall. intros x Hx.
  apply is_byteb_true. unfold bytes_ok in H.
  rewrite Forall_forall in H. apply H, Hx.
Qed.

(** Every builder ends the same way: make the body a byte string, then
    append its checksum. *)
Lemma framed (body : list Z) :
  bytes_ok body ->
  (frame <- bytes_of body ;; crc <- crc16 frame ;; Ok (frame ++ crc))%res
  = Ok (body ++ [crc_lo body; crc_hi body]).
Proof.
  intros H. rewrite (bytes_of_ok _ H). simpl.
  rewrite (crc16_value _ H). reflexivity.
Qed.

Lemma low_byte_ok (a : Z) : is_byte (Z.land a 255).
Proof.
  change 255 with (Z.ones 8). rewrite Z.land_ones by lia.
  unfold is_byte. apply Z.mod_pos_bound. lia.
Qed.

Lemma low_byte_small (a : Z) : 0 <= a < 256 -> Z.land a 255 = a.
Proof.
  intros H. change 255 with (Z.ones 8). rewrite Z.land_ones by lia.
  apply Z.mod_small. exact H.
Qed.

Lemma high_byte_small (a : Z) : 0 <= a < 256 -> Z.land (Z.shiftr a 8) 255 = 0.
Proof.
  intros H. rewrite Z.shiftr_div_pow2 by lia.
  change (2 ^ 8) with 256. rewrite Z.div_small by exact H. reflexivity.
Qed.

Ltac byte_list :=
  unfold bytes_ok;
  repeat (apply Forall_cons; [first [apply low_byte_ok | unfold is_byte; lia]|]);
  apply Forall_nil.

(** ** The checksum *)

(** C1. [crc16] is the Modbus CRC16: on every byte string it returns the
    two bytes, low byte first, of the register that starts at 0xFFFF and
    goes through eight least-significant-bit-first steps with polynomial
    0xA001 per input byte; on the three documented bodies it returns
    D9 9A, D9 6A and D5 CA. *)
Theorem crc16_is_modbus_crc16 :
  (forall data, bytes_ok data -> crc16 data = Ok (ref_crc16 data)) /\
  crc16 [0x01; 0x06; 0x00; 0x01; 0x01; 0x00] = Ok [0xD9; 0x9A] /\
  crc16 [0x01; 0x06; 0x00; 0x01; 0x02; 0x00] = Ok [0xD9; 0x6A] /\
  crc16 [0x01; 0x03; 0x00; 0x01; 0x00; 0x01] = Ok [0xD5; 0xCA].
Proof.
  split; [|repeat split; vm_compute; reflexivity].
  intros data Hd. rewrite (crc16_value _ Hd).
  unfold ref_crc16. rewrite crc_register_ref. reflexivity.
Qed.

Lemma crc16_is_modbus_crc16_witness :
  crc16 [0x01; 0x06; 0x00; 0xFD; 0x00; 0x00]
  = Ok (ref_crc16 [0x01; 0x06; 0x00; 0xFD; 0x00; 0x00]).
Proof.
  apply (proj1 crc16_is_modbus_crc16). byte_list.
Defined.

(** C10. On every byte string [crc16] returns exactly two bytes: the
    register is below 2^16 (and not negative) after the xor of every input
    byte and after each of the shifts that follow it, so the conversion to
    two little-endian bytes does not raise. *)
Theorem crc16_total_two_bytes (data : list Z) :
  bytes_ok data ->
  (forall pre b post k,
      data = pre ++ b :: post -> (k <= 8)%nat ->
      0 <= crc_shifts k (Z.lxor (crc_register pre) b) < 2 ^ 16) /\
  0 <= crc_register data < 2 ^ 16 /\
  exists out,
    crc16 data = Ok out /\ List.length out = 2%nat /\ bytes_ok out.
Proof.
  intros Hd. split; [|split].
  - intros pre b post k E _. subst data.
    unfold bytes_ok in Hd. apply Forall_app in Hd. destruct Hd as [Hpre Hrest].
    inversion Hrest; subst.
    apply crc_shifts_ok, crc_xor_ok; [apply crc_register_ok, Hpre | assumption].
  - apply crc_register_ok, Hd.
  - destruct (crc16_two_bytes data Hd) as (lo & hi & E & Hlo & Hhi).
    exists [lo; hi]. split; [exact E|]. split; [reflexivity|].
    unfold bytes_ok. repeat constructor; apply Hlo || apply Hhi.
Qed.

Lemma crc16_total_two_bytes_witness :
  (forall pre b post k,
      [0x01; 0x03; 0x00; 0x81; 0x00; 0x01] = pre ++ b :: post -> (k <= 8)%nat ->
      0 <= crc_shifts k (Z.lxor (crc_register pre) b) < 2 ^ 16) /\
  0 <= crc_register [0x01; 0x03; 0x00; 0x81; 0x00; 0x01] < 2 ^ 16 /\
  exists out,
    crc16 [0x01; 0x03; 0x00; 0x81; 0x00; 0x01] = Ok out /\
    List.length out = 2%nat /\ bytes_ok out.
Proof.
  apply (crc16_total_two_bytes [0x01; 0x03; 0x00; 0x81; 0x00; 0x01]).
  byte_list.
Defined.

(** ** Frame builders *)

Lemma channel_in_range (ch : Z) :
  1 <= ch <= 8 -> (ch <? 1) || (8 <? ch) = false /\ (8 <? ch) || (ch <? 1) = false.
Proof.
  intros H. destruct (Z.ltb_spec ch 1); [lia|].
  destruct (Z.ltb_spec 8 ch); [lia|]. split; reflexivity.
Qed.

Lemma channel_out_of_range (ch : Z) :
  ch < 1 \/ 8 < ch -> (ch <? 1) || (8 <? ch) = true /\ (8 <? ch) || (ch <? 1) = true.
Proof.
  intros H. destruct (Z.ltb_spec ch 1); destruct (Z.ltb_spec 8 ch);
    try lia; split; reflexivity.
Qed.

Lemma relay_body_ok (device channel : Z) (action : string) :
  is_byte device -> 1 <= channel <= 8 -> bytes_ok (relay_body device channel action).
Proof.
  intros Hd Hc. unfold relay_body, action_data, is_byte in *.
  destruct (String.eqb action "on"); simpl; byte_list.
Qed.

Lemma json_build_relay_command_ok (device channel : Z) (action : string) :
  is_byte device -> 1 <= channel <= 8 -> action = "on" \/ action = "off" ->
  Json.build_relay_command device channel action
  = Ok (relay_body device channel action
        ++ [crc_lo (relay_body device channel action);
            crc_hi (relay_body device channel action)]).
Proof.
  intros Hd Hc Ha. unfold Json.build_relay_command.
  rewrite (proj1 (channel_in_range _ Hc)).
  pose proof (relay_body_ok device channel action Hd Hc) as Hb.
  destruct Ha as [-> | ->]; cbn [String.eqb res_bind];
    (* the action test is decided by computation *)
    change (String.eqb "on" "on") with true in *;
    change (String.eqb "off" "on") with false in *;
    change (String.eqb "off" "off") with true in *;
    cbn iota beta; apply (framed _ Hb).
Qed.

Lemma cli_build_relay_command_ok (device channel : Z) (action : string)
      (w : World) :
  is_byte device -> 1 <= channel <= 8 -> action = "on" \/ action = "off" ->
  Cli.build_relay_command device channel action w
  = (Ok (relay_body device channel action
         ++ [crc_lo (relay_body device channel action);
             crc_hi (relay_body device channel action)]),
     snd (print ("Frame without CRC: "
                 ++ hexdump (relay_body device channel action))%string w)).
Proof.
  intros Hd Hc Ha.
  pose proof (relay_body_ok device channel action Hd Hc) as Hb.
  pose proof (crc16_value _ Hb) as Hcrc.
  pose proof (bytes_of_ok _ Hb) as Hbytes.
  unfold crc_lo, crc_hi.
  set (reg := crc_register (relay_body device channel action)) in *.
  clearbody reg.
  unfold Cli.build_relay_command, bind, lift, ret.
  rewrite (proj2 (channel_in_range _ Hc)).
  destruct Ha as [-> | ->].
  - change (relay_body device channel "on") with [device; 6; 0; channel; 1; 0] in *.
    change (String.eqb "on" "on") with true. cbn iota beta.
    unfold WRITE_REG. rewrite Hbytes. unfold print. cbn [snd]. rewrite Hcrc.
    reflexivity.
  - change (relay_body device channel "off") with [device; 6; 0; channel; 2; 0] in *.
    change (String.eqb "off" "on") with false.
    change (String.eqb "off" "off") with true. cbn iota beta.
    unfold WRITE_REG. rewrite Hbytes. unfold print. cbn [snd]. rewrite Hcrc.
    reflexivity.
Qed.

(** C2. For a device in 1..247, a channel in 1..8 and an action among on
    and off, [build_relay_command] (in the JSON bridge and in the
    interactive program alike) returns a frame of exactly eight bytes:
    device, 0x06, 0x00, channel, then 01 00 for on or 02 00 for off, then
    the checksum of these six bytes; the frame for device 1, channel 1, on
    is 01 06 00 01 01 00 D9 9A. *)
Theorem build_relay_command_frame :
  (forall device channel action,
      1 <= device <= 247 -> 1 <= channel <= 8 ->
      action = "on" \/ action = "off" ->
      exists frame c0 c1,
        Json.build_relay_command device channel action = Ok frame /\
        (forall w, fst (Cli.build_relay_command device channel action w)
                   = Ok frame) /\
        List.length frame = 8%nat /\
        frame = [device; 0x06; 0x00; channel;
                 if String.eqb action "on" then 0x01 else 0x02; 0x00;
                 c0; c1] /\
        crc16 (firstn 6 frame) = Ok [c0; c1]) /\
  Json.build_relay_command 1 1 "on"
  = Ok [0x01; 0x06; 0x00; 0x01; 0x01; 0x00; 0xD9; 0x9A].
Proof.
  split; [|vm_compute; reflexivity].
  intros device channel action Hd Hc Ha.
  assert (Hdb : is_byte device) by (unfold is_byte; lia).
  pose proof (relay_body_ok device channel action Hdb Hc) as Hb.
  pose proof (crc16_value _ Hb) as Hcrc.
  exists (relay_body device channel action
          ++ [crc_lo (relay_body device channel action);
              crc_hi (relay_body device channel action)]),
         (crc_lo (relay_body device channel action)),
         (crc_hi (relay_body device channel action)).
  split; [apply json_build_relay_command_ok; assumption|].
  split; [intros w; rewrite cli_build_relay_command_ok by assumption;
          reflexivity|].
  split; [reflexivity|].
  split.
  - unfold relay_body, action_data.
    destruct (String.eqb action "on"); reflexivity.
  - exact Hcrc.
Qed.

Lemma build_relay_command_frame_witness :
  exists frame c0 c1,
    Json.build_relay_command 7 3 "off" = Ok frame /\
    (forall w, fst (Cli.build_relay_command 7 3 "off" w) = Ok frame) /\
    List.length frame = 8%nat /\
    frame = [7; 0x06; 0x00; 3;
             if String.eqb "off" "on" then 0x01 else 0x02; 0x00; c0; c1] /\
    crc16 (firstn 6 frame) = Ok [c0; c1].
Proof.
  apply (proj1 build_relay_command_frame 7 3 "off"); [lia | lia | right; reflexivity].
Defined.

Lemma read_frame (device addr_hi addr_lo : Z) :
  is_byte device -> is_byte addr_hi -> is_byte addr_lo ->
  (frame <- bytes_of [device; READ_REG; addr_hi; addr_lo; 0x00; 0x01] ;;
   crc <- crc16 frame ;; Ok (frame ++ crc))%res
  = Ok (read_body device addr_hi addr_lo
        ++ [crc_lo (read_body device addr_hi addr_lo);
            crc_hi (read_body device addr_hi addr_lo)]).
Proof.
  intros Hd Hh Hl. unfold READ_REG. apply framed.
  unfold is_byte in *. byte_list.
Qed.

Lemma read_body_crc (device addr_hi addr_lo : Z) :
  is_byte device -> is_byte addr_hi -> is_byte addr_lo ->
  crc16 (read_body device addr_hi addr_lo)
  = Ok [crc_lo (read_body device addr_hi addr_lo);
        crc_hi (read_body device addr_hi addr_lo)].
Proof.
  intros Hd Hh Hl. apply crc16_value.
  unfold read_body, is_byte in *. byte_list.
Qed.

Lemma zero_is_byte : is_byte 0.
Proof. unfold is_byte. lia. Qed.

(** The address-based read builders, for any integer address. *)
Lemma build_read_addr (device addr : Z) :
  is_byte device ->
  (frame <- bytes_of [device; READ_REG;
                      Z.land (Z.shiftr addr 8) 0xFF; Z.land addr 0xFF;
                      0x00; 0x01] ;;
   crc <- crc16 frame ;; Ok (frame ++ crc))%res
  = Ok (read_body device (Z.land (Z.shiftr addr 8) 0xFF) (Z.land addr 0xFF)
        ++ [crc_lo (read_body device (Z.land (Z.shiftr addr 8) 0xFF)
                              (Z.land addr 0xFF));
            crc_hi (read_body device (Z.land (Z.shiftr addr 8) 0xFF)
                              (Z.land addr 0xFF))]).
Proof.
  intros Hd. apply read_frame; [exact Hd | apply low_byte_ok | apply low_byte_ok].
Qed.

(** C3. For a device that fits a byte and a channel ch in 1..8, the
    output-status builders agree on everything but the register address:
    the JSON bridge's [build_read_output] sends device, 0x03, 0x00, ch,
    0x00, 0x01 and the interactive program's [builst_read_output] sends
    device, 0x03, 0x00, ch+1, 0x00, 0x01, each followed by the checksum of
    its own six bytes.  (The textual bridge's [builst_read_output] builds
    the same frame as the JSON bridge.) *)
Theorem output_status_builders_differ_in_address (device ch : Z) :
  is_byte device -> 1 <= ch <= 8 ->
  exists c0 c1 d0 d1,
    Json.build_read_output device ch
    = Ok [device; 0x03; 0x00; ch; 0x00; 0x01; c0; c1] /\
    crc16 [device; 0x03; 0x00; ch; 0x00; 0x01] = Ok [c0; c1] /\
    Cli.builst_read_output device ch
    = Ok [device; 0x03; 0x00; ch + 1; 0x00; 0x01; d0; d1] /\
    crc16 [device; 0x03; 0x00; ch + 1; 0x00; 0x01] = Ok [d0; d1] /\
    Text.builst_read_output device ch = Json.build_read_output device ch.
Proof.
  intros Hd Hc.
  assert (Hch : is_byte ch) by (unfold is_byte; lia).
  assert (Hch1 : is_byte (ch + 1)) by (unfold is_byte; lia).
  exists (crc_lo (read_body device 0 ch)), (crc_hi (read_body device 0 ch)),
         (crc_lo (read_body device 0 (ch + 1))),
         (crc_hi (read_body device 0 (ch + 1))).
  assert (EJ : Json.build_read_output device ch
               = Ok (read_body device 0 ch
                     ++ [crc_lo (read_body device 0 ch);
                         crc_hi (read_body device 0 ch)])).
  { unfold Json.build_read_output.
    apply read_frame; [exact Hd | apply zero_is_byte | exact Hch]. }
  split; [exact EJ|].
  split; [apply read_body_crc; [exact Hd | apply zero_is_byte | exact Hch]|].
  split.
  - unfold Cli.builst_read_output. cbv zeta.
    rewrite (high_byte_small (ch + 1)), (low_byte_small (ch + 1))
      by (unfold is_byte in Hch1; lia).
    apply read_frame; [exact Hd | apply zero_is_byte | exact Hch1].
  - split; [apply read_body_crc; [exact Hd | apply zero_is_byte | exact Hch1]|].
    rewrite EJ. unfold Text.builst_read_output. cbv zeta.
    rewrite (high_byte_small ch), (low_byte_small ch)
      by (unfold is_byte in Hch; lia).
    apply read_frame; [exact Hd | apply zero_is_byte | exact Hch].
Qed.

Lemma output_status_builders_differ_in_address_witness :
  exists c0 c1 d0 d1,
    Json.build_read_output 1 8
    = Ok [1; 0x03; 0x00; 8; 0x00; 0x01; c0; c1] /\
    crc16 [1; 0x03; 0x00; 8; 0x00; 0x01] = Ok [c0; c1] /\
    Cli.builst_read_output 1 8
    = Ok [1; 0x03; 0x00; 8 + 1; 0x00; 0x01; d0; d1] /\
    crc16 [1; 0x03; 0x00; 8 + 1; 0x00; 0x01] = Ok [d0; d1] /\
    Text.builst_read_output 1 8 = Json.build_read_output 1 8.
Proof.
  apply (output_status_builders_differ_in_address 1 8); unfold is_byte; lia.
Defined.

(** C6, as the code has it: [build_read_input] checks no channel.  For
    every integer channel and a device that fits a byte it returns the
    eight-byte frame device, 0x03, the two low bytes of 0x0080 + channel,
    0x00, 0x01 and the checksum of these six bytes; for a channel in 1..8
    the register address bytes are 0x00 and 0x80 + channel.  The three
    programs share the function. *)
Theorem build_read_input_any_channel (device input_num : Z) :
  is_byte device ->
  exists c0 c1,
    Json.build_read_input device input_num
    = Ok [device; 0x03;
          Z.land (Z.shiftr (0x0080 + input_num) 8) 0xFF;
          Z.land (0x0080 + input_num) 0xFF;
          0x00; 0x01; c0; c1] /\
    crc16 [device; 0x03;
           Z.land (Z.shiftr (0x0080 + input_num) 8) 0xFF;
           Z.land (0x0080 + input_num) 0xFF;
           0x00; 0x01] = Ok [c0; c1] /\
    Cli.build_read_input device input_num
    = Json.build_read_input device input_num /\
    Text.build_read_input device input_num
    = Json.build_read_input device input_num /\
    (1 <= input_num <= 8 ->
     Z.land (Z.shiftr (0x0080 + input_num) 8) 0xFF = 0x00 /\
     Z.land (0x0080 + input_num) 0xFF = 0x80 + input_num).
Proof.
  intros Hd.
  set (hi := Z.land (Z.shiftr (0x0080 + input_num) 8) 0xFF).
  set (lo := Z.land (0x0080 + input_num) 0xFF).
  exists (crc_lo (read_body device hi lo)), (crc_hi (read_body device hi lo)).
  split; [unfold Json.build_read_input; cbv zeta; apply build_read_addr, Hd|].
  split; [apply read_body_crc; [exact Hd | apply low_byte_ok | apply low_byte_ok]|].
  split; [reflexivity|]. split; [reflexivity|].
  intros Hc. subst hi lo. split.
  - apply high_byte_small. lia.
  - apply low_byte_small. lia.
Qed.

Lemma build_read_input_any_channel_witness :
  exists c0 c1,
    Json.build_read_input 1 5
    = Ok [1; 0x03;
          Z.land (Z.shiftr (0x0080 + 5) 8) 0xFF;
          Z.land (0x0080 + 5) 0xFF;
          0x00; 0x01; c0; c1] /\
    crc16 [1; 0x03;
           Z.land (Z.shiftr (0x0080 + 5) 8) 0xFF;
           Z.land (0x0080 + 5) 0xFF;
           0x00; 0x01] = Ok [c0; c1] /\
    Cli.build_read_input 1 5 = Json.build_read_input 1 5 /\
    Text.build_read_input 1 5 = Json.build_read_input 1 5 /\
    (1 <= 5 <= 8 ->
     Z.land (Z.shiftr (0x0080 + 5) 8) 0xFF = 0x00 /\
     Z.land (0x0080 + 5) 0xFF = 0x80 + 5).
Proof.
  apply (build_read_input_any_channel 1 5). unfold is_byte. lia.
Defined.

(** C6 as stated fails: for channel 9, outside 1..8, [build_read_input]
    raises nothing and returns a frame, addressed to register 0x0089. *)
Lemma build_read_input_channel_9_builds_a_frame :
  Json.build_read_input 1 9
  = Ok [0x01; 0x03; 0x00; 0x89; 0x00; 0x01; 0x55; 0xE0] /\
  Cli.build_read_input 1 9
  = Ok [0x01; 0x03; 0x00; 0x89; 0x00; 0x01; 0x55; 0xE0] /\
  (forall e, Json.build_read_input 1 9 <> Raise e).
Proof.
  split; [vm_compute; reflexivity|].
  split; [vm_compute; reflexivity|].
  intros e. vm_compute. discriminate.
Qed.

(** C7, as the code has it: for a channel outside 1..8
    [build_relay_command] returns no frame and changes nothing.  The JSON
    bridge raises the channel error whatever the action; the interactive
    program and the textual bridge test the action first, so they raise the
    channel error when the action is on or off and the action error
    otherwise.  In the JSON bridge the command then writes nothing to the
    serial line and publishes the error; in the interactive program the
    command leaves the world as it was. *)
Theorem build_relay_command_rejects_channel
        (device channel : Z) (action : string) :
  channel < 1 \/ 8 < channel ->
  Json.build_relay_command device channel action = Raise channel_error /\
  (forall w,
      Cli.build_relay_command device channel action w
      = (Raise (if String.eqb action "on" || String.eqb action "off"
                then channel_error else action_error), w)) /\
  (forall w,
      Text.build_relay_command device channel action w
      = Cli.build_relay_command device channel action w) /\
  (forall w,
      Json.process_command device (Output channel action) w
      = (Ok tt,
         mkWorld (script w) (rx w) (tx w) (stdout w)
                 (published w
                  ++ [PJson (JDict [("result", JStr "error");
                                    ("message", JStr "channel must be 1-8")])]))) /\
  (forall w,
      Cli.do_out device channel action w
      = (Raise (if String.eqb action "on" || String.eqb action "off"
                then channel_error else action_error), w)).
Proof.
  intros Hc.
  destruct (channel_out_of_range _ Hc) as [G1 G2].
  assert (EJ : Json.build_relay_command device channel action
               = Raise channel_error).
  { unfold Json.build_relay_command. rewrite G1. reflexivity. }
  assert (EC : forall w,
             Cli.build_relay_command device channel action w
             = (Raise (if String.eqb action "on" || String.eqb action "off"
                       then channel_error else action_error), w)).
  { intros w. unfold Cli.build_relay_command, bind, lift, ret.
    rewrite G2.
    destruct (String.eqb action "on"); [reflexivity|].
    destruct (String.eqb action "off"); reflexivity. }
  split; [exact EJ|]. split; [exact EC|]. split; [reflexivity|].
  split.
  - intros w. unfold Json.process_command, try_except, bind, lift.
    rewrite EJ. reflexivity.
  - intros w. unfold Cli.do_out, bind. rewrite EC. reflexivity.
Qed.

Lemma build_relay_command_rejects_channel_witness :
  Json.build_relay_command 1 9 "on" = Raise channel_error /\
  (forall w,
      Cli.build_relay_command 1 9 "on" w
      = (Raise (if String.eqb "on" "on" || String.eqb "on" "off"
                then channel_error else action_error), w)) /\
  (forall w,
      Text.build_relay_command 1 9 "on" w
      = Cli.build_relay_command 1 9 "on" w) /\
  (forall w,
      Json.process_command 1 (Output 9 "on") w
      = (Ok tt,
         mkWorld (script w) (rx w) (tx w) (stdout w)
                 (published w
                  ++ [PJson (JDict [("result", JStr "error");
                                    ("message", JStr "channel must be 1-8")])]))) /\
  (forall w,
      Cli.do_out 1 9 "on" w
      = (Raise (if String.eqb "on" "on" || String.eqb "on" "off"
                then channel_error else action_error), w)).
Proof.
  apply (build_relay_command_rejects_channel 1 9 "on"). right. lia.
Defined.

(** C7 as stated fails: with channel 9 and an action that is neither on
    nor off, the textual bridge's (and the interactive program's)
    [build_relay_command] raises the action error, not the channel error. *)
Lemma build_relay_command_invalid_action_first :
  Text.build_relay_command 1 9 "toggle" quiet_world
  = (Raise action_error, quiet_world) /\
  Cli.build_relay_command 1 9 "toggle" quiet_world
  = (Raise action_error, quiet_world) /\
  action_error <> channel_error.
Proof.
  split; [vm_compute; reflexivity|].
  split; [vm_compute; reflexivity|].
  unfold action_error, channel_error. discriminate.
Qed.

(** ** Handling of the bytes read back *)

Lemma print_pubish_one (text : string) (w : World) :
  Text.print_pubish [text] w = (Ok tt, with_text w text).
Proof. reflexivity. Qed.

Lemma index_short (resp : list Z) :
  (List.length resp < 5)%nat ->
  index resp 4 = Raise (IndexError "index out of range").
Proof.
  intros H. unfold index.
  replace (nth_error resp 4) with (@None Z); [reflexivity|].
  symmetry. apply nth_error_None. lia.
Qed.

Lemma index_long (resp : list Z) :
  (5 <= List.length resp)%nat ->
  exists b, nth_error resp 4 = Some b /\ index resp 4 = Ok b.
Proof.
  intros H. unfold index.
  destruct (nth_error resp 4) as [b|] eqn:E.
  - exists b. split; reflexivity.
  - apply nth_error_None in E. lia.
Qed.

Lemma len_positive (resp : list Z) :
  (1 <= List.length resp)%nat -> (0 <? len resp) = true.
Proof.
  intros H. unfold len. apply Z.ltb_lt. lia.
Qed.

Lemma json_state_of_long (resp : list Z) (b : Z) :
  nth_error resp 4 = Some b ->
  Json.state_of resp = Ok (if b =? 1 then "on" else "off").
Proof.
  intros E. unfold Json.state_of, index.
  destruct resp as [|x rest]; [discriminate E|].
  rewrite E. reflexivity.
Qed.

Lemma cli_report_long (what : string) (i : Z) (resp : list Z) (b : Z)
      (w : World) :
  nth_error resp 4 = Some b ->
  Cli.report what i resp w = (Ok tt, with_stdout w [on_off_line what i b]).
Proof.
  intros E. unfold Cli.report, index, bind, lift, on_off_line.
  rewrite len_positive.
  - rewrite E. destruct (b =? 1); reflexivity.
  - assert (nth_error resp 4 <> None) as N by (rewrite E; discriminate).
    apply nth_error_Some in N. lia.
Qed.

Lemma cli_report_in_long (inp : Z) (resp : list Z) (b : Z) (w : World) :
  nth_error resp 4 = Some b ->
  Cli.report_in inp resp w
  = (Ok tt, with_stdout w [("<- Response: " ++ hexdump resp)%string;
                           on_off_line "Input" inp b]).
Proof.
  intros E. unfold Cli.report_in, index, bind, lift, on_off_line.
  rewrite len_positive.
  - unfold print at 1. cbn [stdout script rx tx published].
    rewrite E. unfold with_stdout.
    destruct (b =? 1); unfold print; cbn [stdout script rx tx published];
      rewrite <- app_assoc; reflexivity.
  - assert (nth_error resp 4 <> None) as N by (rewrite E; discriminate).
    apply nth_error_Some in N. lia.
Qed.

Lemma text_report_long (messages : list string) (i : Z) (resp : list Z)
      (b : Z) (w : World) :
  nth_error resp 4 = Some b ->
  Text.report messages i resp w
  = (Ok (messages ++ [on_off_line "Input" i b]), w).
Proof.
  intros E. unfold Text.report, index, bind, lift, ret, on_off_line.
  rewrite len_positive.
  - rewrite E. destruct (b =? 1); reflexivity.
  - assert (nth_error resp 4 <> None) as N by (rewrite E; discriminate).
    apply nth_error_Some in N. lia.
Qed.

Lemma text_report_in_long (inp : Z) (resp : list Z) (b : Z) (w : World) :
  nth_error resp 4 = Some b ->
  Text.report_in inp resp w = (Ok tt, with_text w (on_off_line "Input" inp b)).
Proof.
  intros E. unfold Text.report_in, index, bind, lift, on_off_line.
  rewrite len_positive.
  - rewrite E. cbv zeta. rewrite print_pubish_one.
    destruct (b =? 1); reflexivity.
  - assert (nth_error resp 4 <> None) as N by (rewrite E; discriminate).
    apply nth_error_Some in N. lia.
Qed.



(** C4 against the code: a response of one to four bytes passes the
    emptiness test and the read of the byte at offset 4 then raises
    IndexError, in the three programs; no outcome is produced as a value. *)
Theorem short_response_raises_index_error (resp : list Z) :
  (1 <= List.length resp < 5)%nat ->
  Json.state_of resp = Raise index_error /\
  (forall inp w,
      Cli.report_in inp resp w
      = (Raise index_error,
         with_stdout w [("<- Response: " ++ hexdump resp)%string])) /\
  (forall what i w, Cli.report what i resp w = (Raise index_error, w)) /\
  (forall inp w, Text.report_in inp resp w = (Raise index_error, w)) /\
  (forall messages i w,
      Text.report messages i resp w = (Raise index_error, w)).
Proof.
  intros [Hlo Hhi].
  pose proof (index_short resp Hhi) as E.
  pose proof (len_positive resp Hlo) as P.
  split.
  - unfold Json.state_of. destruct resp as [|x rest]; [simpl in Hlo; lia|].
    rewrite E. reflexivity.
  - split; [|split; [|split]]; intros.
    + unfold Cli.report_in, bind, lift. rewrite P.
      unfold print at 1. rewrite E. reflexivity.
    + unfold Cli.report, bind, lift. rewrite P, E. reflexivity.
    + unfold Text.report_in, bind, lift. rewrite P, E. reflexivity.
    + unfold Text.report, bind, lift. rewrite P, E. reflexivity.
Qed.

Lemma short_response_raises_index_error_witness :
  Json.state_of [0x01; 0x03; 0x02] = Raise index_error /\
  (forall inp w,
      Cli.report_in inp [0x01; 0x03; 0x02] w
      = (Raise index_error,
         with_stdout w [("<- Response: " ++ hexdump [0x01; 0x03; 0x02])%string])) /\
  (forall what i w,
      Cli.report what i [0x01; 0x03; 0x02] w = (Raise index_error, w)) /\
  (forall inp w,
      Text.report_in inp [0x01; 0x03; 0x02] w = (Raise index_error, w)) /\
  (forall messages i w,
      Text.report messages i [0x01; 0x03; 0x02] w = (Raise index_error, w)).
Proof.
  apply (short_response_raises_index_error [0x01; 0x03; 0x02]). simpl. lia.
Defined.

(** The JSON bridge turns the IndexError into an error message: the
    command publishes no state at all. *)
Example json_input_short_reply :
  Json.process_command 1 (Input 1) short_reply_world
  = (Ok tt,
     mkWorld [] [] [[0x01; 0x03; 0x00; 0x81; 0x00; 0x01; 0xD4; 0x22]] []
             [PJson (JDict [("result", JStr "error");
                            ("message", JStr "index out of range")])]).
Proof. vm_compute. reflexivity. Qed.

(** In a status poll of the JSON bridge the short reply to channel 1 ends
    the loop: one frame has been written and no state is published. *)
Example json_status_short_reply :
  Json.process_command 1 (Status "inputs") short_reply_world
  = (Ok tt,
     mkWorld [] [] [[0x01; 0x03; 0x00; 0x81; 0x00; 0x01; 0xD4; 0x22]] []
             [PJson (JDict [("result", JStr "error");
                            ("message", JStr "index out of range")])]).
Proof. vm_compute. reflexivity. Qed.

(** The interactive program has no handler: the exception leaves the loop
    after the hex dump has been printed. *)
Example cli_in_short_reply :
  Cli.do_in 1 1 short_reply_world
  = (Raise index_error,
     mkWorld [] [] [[0x01; 0x03; 0x00; 0x81; 0x00; 0x01; 0xD4; 0x22]]
             ["<- Response: 01 03 02"] []).
Proof. vm_compute. reflexivity. Qed.

Example cli_status_inp_short_reply :
  Cli.do_status_inp 1 short_reply_world
  = (Raise index_error,
     mkWorld [] [] [[0x01; 0x03; 0x00; 0x81; 0x00; 0x01; 0xD4; 0x22]] [] []).
Proof. vm_compute. reflexivity. Qed.

(** One cycle with a device that stays silent: the frame goes out and
    nothing is read. *)
Lemma exchange_silent (frame : list Z) (w : World) :
  hd [] (script w) = [] ->
  exchange frame w
  = (Ok [], mkWorld (tl (script w)) [] (tx w ++ [frame]) (stdout w)
                    (published w)).
Proof.
  intros H.
  unfold exchange, bind, ser_reset_input_buffer, ser_write, sleep, ret,
    ser_read.
  cbn [script rx tx stdout published app]. rewrite H. reflexivity.
Qed.

(** C5, as the code has it.  On an empty response: the interactive
    program and the textual bridge report that there was no response
    (timeout), for a single input and inside the status polls, and report
    neither ON nor OFF; the textual bridge's [on all]/[off all] record the
    same and the JSON bridge's [output_all] records a null response; the
    JSON bridge's read expression yields the state off; the interactive
    program's [on all]/[off all], like every single relay write, show the
    hex dump of the response, which is the empty string.  For the single
    relay writes this is stated command by command: with a device that
    fits a byte, a channel in 1..8, a state on or off and a device that
    stays silent, [out] of the interactive program prints the line
    "<- Response: " with nothing after it, [out] of the textual bridge
    publishes that same text, and [output] of the JSON bridge publishes
    result ok with an empty response; none of them reports a timeout. *)
Theorem empty_response_handling :
  (forall inp w,
      Cli.report_in inp [] w
      = (Ok tt, with_stdout w ["<- No response (timeout)."])) /\
  (forall what i w,
      Cli.report what i [] w
      = (Ok tt, with_stdout w [(what ++ " " ++ dec i
                                ++ ": No response (timeout).")%string])) /\
  (forall inp w,
      Text.report_in inp [] w
      = (Ok tt, with_text w "<- No response (timeout).")) /\
  (forall messages i w,
      Text.report messages i [] w
      = (Ok (messages ++ [("Input " ++ dec i
                           ++ ": No response (timeout)")%string]), w)) /\
  (forall word colon messages i,
      Text.record_write word colon messages i []
      = messages ++ [("Channel " ++ dec i ++ colon
                      ++ " No response (timeout)")%string]) /\
  Json.response_field [] = JNone /\
  Json.state_of [] = Ok "off" /\
  (forall word i w,
      Cli.report_write word i [] w
      = (Ok tt, with_stdout w [("Channel " ++ dec i ++ " " ++ word
                                ++ " response: ")%string])) /\
  hexdump [] = EmptyString /\
  (forall device ch state w,
      is_byte device -> 1 <= ch <= 8 -> state = "on" \/ state = "off" ->
      hd [] (script w) = [] ->
      Json.build_relay_command device ch state
      = Ok (relay_frame device ch state) /\
      Cli.do_out device ch state w
      = (Ok tt,
         mkWorld (tl (script w)) []
                 (tx w ++ [relay_frame device ch state])
                 (stdout w ++ [frame_line device state ch; "<- Response: "])
                 (published w)) /\
      Text.do_out device ch state w
      = (Ok tt,
         mkWorld (tl (script w)) []
                 (tx w ++ [relay_frame device ch state])
                 (stdout w
                  ++ [(dec device ++ " " ++ dec ch ++ " " ++ state)%string;
                      frame_line device state ch;
                      "Publishing message: <- Response: "])
                 (published w ++ [PText "<- Response: "])) /\
      Json.process_command device (Output ch state) w
      = (Ok tt,
         mkWorld (tl (script w)) []
                 (tx w ++ [relay_frame device ch state])
                 (stdout w)
                 (published w
                  ++ [PJson (JDict [("result", JStr "ok");
                                    ("cmd", JStr "output");
                                    ("channel", JInt ch);
                                    ("state", JStr state);
                                    ("response", JStr EmptyString)])]))).
Proof.
  do 9 (split; [intros; reflexivity|]).
  intros device ch state w Hd Hc Ha Hs.
  pose proof (json_build_relay_command_ok device ch state Hd Hc Ha) as EJ.
  fold (relay_frame device ch state) in EJ.
  split; [exact EJ|].
  split; [|split].
  - unfold Cli.do_out, bind.
    rewrite (cli_build_relay_command_ok device ch state w Hd Hc Ha).
    fold (relay_frame device ch state). fold (frame_line device state ch).
    unfold print at 1. cbn [snd].
    rewrite exchange_silent by exact Hs.
    unfold print. cbn [script rx tx stdout published].
    rewrite <- app_assoc. reflexivity.
  - unfold Text.do_out, bind, sleep, ret, Text.build_relay_command.
    unfold print at 1.
    rewrite (cli_build_relay_command_ok device ch state _ Hd Hc Ha).
    fold (relay_frame device ch state). fold (frame_line device state ch).
    unfold print at 1. cbn [snd script rx tx stdout published].
    rewrite exchange_silent by exact Hs.
    unfold Text.print_pubish, bind, publish, print.
    cbn [script rx tx stdout published].
    rewrite <- !app_assoc. reflexivity.
  - unfold Json.process_command, try_except, bind, lift.
    rewrite EJ. rewrite exchange_silent by exact Hs. reflexivity.
Qed.

Lemma empty_response_handling_witness :
  Json.build_relay_command 1 1 "on" = Ok (relay_frame 1 1 "on") /\
  Cli.do_out 1 1 "on" quiet_world
  = (Ok tt,
     mkWorld (tl (script quiet_world)) []
             (tx quiet_world ++ [relay_frame 1 1 "on"])
             (stdout quiet_world ++ [frame_line 1 "on" 1; "<- Response: "])
             (published quiet_world)) /\
  Text.do_out 1 1 "on" quiet_world
  = (Ok tt,
     mkWorld (tl (script quiet_world)) []
             (tx quiet_world ++ [relay_frame 1 1 "on"])
             (stdout quiet_world
              ++ [(dec 1 ++ " " ++ dec 1 ++ " " ++ "on")%string;
                  frame_line 1 "on" 1;
                  "Publishing message: <- Response: "])
             (published quiet_world ++ [PText "<- Response: "])) /\
  Json.process_command 1 (Output 1 "on") quiet_world
  = (Ok tt,
     mkWorld (tl (script quiet_world)) []
             (tx quiet_world ++ [relay_frame 1 1 "on"])
             (stdout quiet_world)
             (published quiet_world
              ++ [PJson (JDict [("result", JStr "ok");
                                ("cmd", JStr "output");
                                ("channel", JInt 1);
                                ("state", JStr "on");
                                ("response", JStr EmptyString)])])).
Proof.
  destruct empty_response_handling as (_ & _ & _ & _ & _ & _ & _ & _ & _ & H).
  apply (H 1 1 "on" quiet_world).
  - unfold is_byte. lia.
  - lia.
  - left. reflexivity.
  - reflexivity.
Defined.

(** With a silent device, command by command. *)
Example cli_in_silent_device :
  Cli.do_in 1 1 quiet_world
  = (Ok tt,
     mkWorld [] [] [[0x01; 0x03; 0x00; 0x81; 0x00; 0x01; 0xD4; 0x22]]
             ["<- No response (timeout)."] []).
Proof. vm_compute. reflexivity. Qed.

Example text_in_silent_device :
  Text.do_in 1 1 quiet_world
  = (Ok tt,
     mkWorld [] [] [[0x01; 0x03; 0x00; 0x81; 0x00; 0x01; 0xD4; 0x22]]
             ["Publishing message: <- No response (timeout)."]
             [PText "<- No response (timeout)."]).
Proof. vm_compute. reflexivity. Qed.

Example cli_out_silent_device :
  Cli.do_out 1 1 "on" quiet_world
  = (Ok tt,
     mkWorld [] [] [[0x01; 0x06; 0x00; 0x01; 0x01; 0x00; 0xD9; 0x9A]]
             ["Frame without CRC: 01 06 00 01 01 00"; "<- Response: "] []).
Proof. vm_compute. reflexivity. Qed.

Example json_output_silent_device :
  Json.process_command 1 (Output 1 "on") quiet_world
  = (Ok tt,
     mkWorld [] [] [[0x01; 0x06; 0x00; 0x01; 0x01; 0x00; 0xD9; 0x9A]] []
             [PJson (JDict [("result", JStr "ok");
                            ("cmd", JStr "output");
                            ("channel", JInt 1);
                            ("state", JStr "on");
                            ("response", JStr EmptyString)])]).
Proof. vm_compute. reflexivity. Qed.

(** C5 as stated fails: the JSON bridge reads an empty response as off.
    With a silent device the [input] command publishes the state off. *)
Lemma json_empty_response_reads_off :
  Json.state_of [] = Ok "off" /\
  Json.process_command 1 (Input 1) quiet_world
  = (Ok tt,
     mkWorld [] [] [[0x01; 0x03; 0x00; 0x81; 0x00; 0x01; 0xD4; 0x22]] []
             [PJson (JDict [("cmd", JStr "input");
                            ("input", JInt 1);
                            ("state", JStr "off");
                            ("raw", JStr EmptyString)])]).
Proof. split; vm_compute; reflexivity. Qed.

(** ** The status poll over the eight channels *)

Lemma exchange_run (frame : list Z) (w : World) :
  exchange frame w
  = (Ok (firstn 256 (hd [] (script w))),
     mkWorld (tl (script w)) (skipn 256 (hd [] (script w)))
             (tx w ++ [frame]) (stdout w) (published w)).
Proof. reflexivity. Qed.

Lemma poll_replies_cons {A} (ch : A) (chs : list A) (scr : list (list Z)) :
  poll_replies (List.length (ch :: chs)) scr
  = firstn 256 (hd [] scr) :: poll_replies (List.length chs) (tl scr).
Proof. reflexivity. Qed.

Lemma nth_error_nth_4 (resp : list Z) (b : Z) :
  nth_error resp 4 = Some b -> nth 4 resp 0 = b.
Proof. intros E. apply nth_error_nth with (d := 0) in E. exact E. Qed.

Lemma json_state_of_decodable (resp : list Z) :
  decodable resp -> Json.state_of resp = Ok (json_state (outcome_of resp)).
Proof.
  intros [-> | H]; [reflexivity|].
  destruct (index_long resp H) as (b & E & _).
  rewrite (json_state_of_long resp b E).
  unfold outcome_of. destruct resp as [|x rest]; [discriminate E|].
  rewrite (nth_error_nth_4 _ _ E). destruct (b =? 1); reflexivity.
Qed.

Lemma cli_report_decodable (what : string) (i : Z) (resp : list Z) (w : World) :
  decodable resp ->
  Cli.report what i resp w = (Ok tt, with_stdout w [cli_line what (i, resp)]).
Proof.
  intros [-> | H]; [reflexivity|].
  destruct (index_long resp H) as (b & E & _).
  rewrite (cli_report_long what i resp b w E).
  unfold cli_line, outcome_of, on_off_line. cbn [fst snd].
  destruct resp as [|x rest]; [discriminate E|].
  rewrite (nth_error_nth_4 _ _ E). destruct (b =? 1); reflexivity.
Qed.

Lemma json_status_frame_ok (device : Z) (target : string) (i : Z) :
  is_byte device -> is_byte i ->
  exists f, json_status_frame device target i = Ok f.
Proof.
  intros Hd Hi. unfold json_status_frame.
  destruct (String.eqb target "inputs").
  - unfold Json.build_read_input. cbv zeta.
    rewrite (build_read_addr device (0x0080 + i) Hd). eexists. reflexivity.
  - unfold Json.build_read_output.
    rewrite (read_frame device 0 i Hd zero_is_byte Hi). eexists. reflexivity.
Qed.

Lemma cli_read_input_ok (device i : Z) :
  is_byte device -> exists f, Cli.build_read_input device i = Ok f.
Proof.
  intros Hd. unfold Cli.build_read_input. cbv zeta.
  rewrite (build_read_addr device (0x0080 + i) Hd). eexists. reflexivity.
Qed.

Lemma cli_read_output_ok (device i : Z) :
  is_byte device -> exists f, Cli.builst_read_output device i = Ok f.
Proof.
  intros Hd. unfold Cli.builst_read_output. cbv zeta.
  rewrite (build_read_addr device (i + 1) Hd). eexists. reflexivity.
Qed.

Lemma json_status_loop (device : Z) (target : string) :
  is_byte device ->
  forall chs states w,
    Forall is_byte chs ->
    Forall decodable (poll_replies (List.length chs) (script w)) ->
    exists w' frames,
      for_acc chs states (Json.status_body device target) w
      = (Ok (states
             ++ map json_entry
                    (combine chs (poll_replies (List.length chs) (script w)))),
         w') /\
      tx w' = tx w ++ frames /\
      Forall2 (fun ch f => json_status_frame device target ch = Ok f) chs frames /\
      stdout w' = stdout w /\
      published w' = published w.
Proof.
  intros Hd chs. induction chs as [|ch chs IH]; intros states w Hch Hr.
  - exists w, []. cbn. rewrite !app_nil_r. repeat split. constructor.
  - inversion Hch as [|? ? Hc Hchs]; subst.
    rewrite poll_replies_cons in Hr.
    pose proof (Forall_inv Hr) as Hr1.
    pose proof (Forall_inv_tail Hr) as Hrs.
    destruct (json_status_frame_ok device target ch Hd Hc) as [f Ef].
    set (w1 := mkWorld (tl (script w)) (skipn 256 (hd [] (script w)))
                       (tx w ++ [f]) (stdout w) (published w)).
    destruct (IH (states ++ [json_entry (ch, firstn 256 (hd [] (script w)))])
                 w1 Hchs Hrs) as (w' & frames & Erun & Etx & Efr & Eout & Epub).
    exists w', (f :: frames).
    split.
    + rewrite poll_replies_cons. cbn [for_acc combine map].
      unfold bind at 1. unfold Json.status_body at 1. unfold bind, lift, ret.
      fold (json_status_frame device target ch). rewrite Ef.
      rewrite exchange_run.
      rewrite (json_state_of_decodable _ Hr1).
      change (json_entry (ch, firstn 256 (hd [] (script w))))
        with (JDict [("channel", JInt ch);
                     ("state", JStr (json_state
                                       (outcome_of
                                          (firstn 256 (hd [] (script w))))))])
        in Erun.
      fold w1. rewrite Erun. unfold w1 at 1. cbn [script].
      rewrite <- app_assoc. reflexivity.
    + split; [rewrite Etx; cbn [tx w1]; rewrite <- app_assoc; reflexivity|].
      split; [constructor; assumption|].
      split; [rewrite Eout; reflexivity | rewrite Epub; reflexivity].
Qed.

Lemma cli_status_loop (device : Z) (what : string)
      (build : Z -> Z -> res (list Z)) :
  (forall i, exists f, build device i = Ok f) ->
  forall chs w,
    Forall decodable (poll_replies (List.length chs) (script w)) ->
    exists w' frames,
      for_each chs (fun i =>
        bind (lift (build device i)) (fun frame =>
        bind (exchange frame) (fun resp => Cli.report what i resp))) w
      = (Ok tt, w') /\
      tx w' = tx w ++ frames /\
      Forall2 (fun ch f => build device ch = Ok f) chs frames /\
      stdout w'
      = stdout w
        ++ map (cli_line what)
               (combine chs (poll_replies (List.length chs) (script w))) /\
      published w' = published w.
Proof.
  intros Hb chs. induction chs as [|ch chs IH]; intros w Hr.
  - exists w, []. cbn. rewrite !app_nil_r. repeat split. constructor.
  - rewrite poll_replies_cons in Hr.
    pose proof (Forall_inv Hr) as Hr1.
    pose proof (Forall_inv_tail Hr) as Hrs.
    destruct (Hb ch) as [f Ef].
    set (w1 := with_stdout
                 (mkWorld (tl (script w)) (skipn 256 (hd [] (script w)))
                          (tx w ++ [f]) (stdout w) (published w))
                 [cli_line what (ch, firstn 256 (hd [] (script w)))]).
    destruct (IH w1 Hrs) as (w' & frames & Erun & Etx & Efr & Eout & Epub).
    exists w', (f :: frames).
    split.
    + unfold for_each in *. cbn [for_acc].
      unfold bind at 1. unfold bind at 1. unfold lift at 1. rewrite Ef.
      unfold bind at 1. rewrite exchange_run.
      rewrite (cli_report_decodable _ _ _ _ Hr1).
      fold w1. exact Erun.
    + split; [rewrite Etx; cbn [tx w1 with_stdout]; rewrite <- app_assoc;
              reflexivity|].
      split; [constructor; assumption|].
      split; [|rewrite Epub; reflexivity].
      rewrite Eout, poll_replies_cons. cbn [combine map].
      unfold w1 at 1. cbn [stdout with_stdout].
      rewrite <- app_assoc. reflexivity.
Qed.

Lemma poll_replies_length (n : nat) :
  forall scr, List.length (poll_replies n scr) = n.
Proof.
  induction n as [|n IH]; intros scr; [reflexivity|].
  change (poll_replies (S n) scr)
    with (firstn 256 (hd [] scr) :: poll_replies n (tl scr)).
  cbn [List.length]. rewrite IH. reflexivity.
Qed.

Lemma range_1_9 : range 1 9 = [1; 2; 3; 4; 5; 6; 7; 8].
Proof. reflexivity. Qed.

Lemma channels_are_bytes : Forall is_byte [1; 2; 3; 4; 5; 6; 7; 8].
Proof. byte_list. Qed.

(** C8, as the code has it.  When every reply of the eight cycles is
    empty or at least five bytes long, the status poll writes the frames of
    channels 1 to 8 in ascending order and produces exactly one result per
    channel, in that order: the JSON bridge publishes a list of eight
    states and the interactive program prints eight lines.  An empty reply
    does not end the loop; its slot reads "No response (timeout)" in the
    interactive program and state off in the JSON bridge. *)
Theorem status_poll_fills_eight_slots
        (device : Z) (target : string) (w : World) :
  is_byte device ->
  Forall decodable (poll_replies 8 (script w)) ->
  let slots := combine [1; 2; 3; 4; 5; 6; 7; 8] (poll_replies 8 (script w)) in
  List.length slots = 8%nat /\
  (exists wj frames,
      Json.process_command device (Status target) w = (Ok tt, wj) /\
      tx wj = tx w ++ frames /\
      Forall2 (fun ch f => json_status_frame device target ch = Ok f)
              [1; 2; 3; 4; 5; 6; 7; 8] frames /\
      published wj
      = published w
        ++ [PJson (JDict [("cmd", JStr "status");
                          ("target", JStr target);
                          ("states", JList (map json_entry slots))])]) /\
  (exists wi frames,
      Cli.do_status_inp device w = (Ok tt, wi) /\
      tx wi = tx w ++ frames /\
      Forall2 (fun ch f => Cli.build_read_input device ch = Ok f)
              [1; 2; 3; 4; 5; 6; 7; 8] frames /\
      stdout wi = stdout w ++ map (cli_line "Input") slots) /\
  (exists wo frames,
      Cli.do_status_out device w = (Ok tt, wo) /\
      tx wo = tx w ++ frames /\
      Forall2 (fun ch f => Cli.builst_read_output device ch = Ok f)
              [1; 2; 3; 4; 5; 6; 7; 8] frames /\
      stdout wo = stdout w ++ map (cli_line "Output") slots) /\
  (forall ch,
      json_entry (ch, [])
      = JDict [("channel", JInt ch); ("state", JStr "off")]) /\
  (forall what ch,
      cli_line what (ch, [])
      = (what ++ " " ++ dec ch ++ ": No response (timeout).")%string).
Proof.
  intros Hd Hr slots.
  split.
  { subst slots. rewrite length_combine, poll_replies_length. reflexivity. }
  split.
  { destruct (json_status_loop device target Hd [1; 2; 3; 4; 5; 6; 7; 8] [] w
                               channels_are_bytes Hr)
      as (wj & frames & Erun & Etx & Efr & _ & Epub).
    exists (mkWorld (script wj) (rx wj) (tx wj) (stdout wj)
                    (published wj
                     ++ [PJson (JDict [("cmd", JStr "status");
                                       ("target", JStr target);
                                       ("states", JList (map json_entry slots))])])),
           frames.
    split; [|split; [exact Etx | split; [exact Efr|]]].
    - unfold Json.process_command, try_except, bind.
      rewrite range_1_9, Erun. reflexivity.
    - cbn [published]. rewrite Epub. reflexivity. }
  split.
  { destruct (cli_status_loop device "Input" Cli.build_read_input
                              (fun i => cli_read_input_ok device i Hd)
                              [1; 2; 3; 4; 5; 6; 7; 8] w Hr)
      as (wi & frames & Erun & Etx & Efr & Eout & _).
    exists wi, frames.
    split; [|split; [exact Etx | split; [exact Efr | exact Eout]]].
    unfold Cli.do_status_inp. rewrite range_1_9. exact Erun. }
  split.
  { destruct (cli_status_loop device "Output" Cli.builst_read_output
                              (fun i => cli_read_output_ok device i Hd)
                              [1; 2; 3; 4; 5; 6; 7; 8] w Hr)
      as (wo & frames & Erun & Etx & Efr & Eout & _).
    exists wo, frames.
    split; [|split; [exact Etx | split; [exact Efr | exact Eout]]].
    unfold Cli.do_status_out. rewrite range_1_9. exact Erun. }
  split; intros; reflexivity.
Qed.

Lemma channel_3_silent_decodable :
  Forall decodable (poll_replies 8 (script channel_3_silent)).
Proof.
  repeat (apply Forall_cons;
          [first [left; reflexivity | right; simpl; lia]|]).
  apply Forall_nil.
Qed.

Lemma status_poll_fills_eight_slots_witness :
  let slots := combine [1; 2; 3; 4; 5; 6; 7; 8]
                       (poll_replies 8 (script channel_3_silent)) in
  List.length slots = 8%nat /\
  (exists wi frames,
      Cli.do_status_inp 1 channel_3_silent = (Ok tt, wi) /\
      tx wi = tx channel_3_silent ++ frames /\
      Forall2 (fun ch f => Cli.build_read_input 1 ch = Ok f)
              [1; 2; 3; 4; 5; 6; 7; 8] frames /\
      stdout wi = stdout channel_3_silent ++ map (cli_line "Input") slots).
Proof.
  pose proof (status_poll_fills_eight_slots 1 "inputs" channel_3_silent)
    as H.
  destruct H as (Hlen & _ & Hcli & _).
  - unfold is_byte. lia.
  - exact channel_3_silent_decodable.
  - split; [exact Hlen | exact Hcli].
Defined.

(** The scenario of the specification in the interactive program: eight
    lines, the third one the timeout, the poll went on to channel 8. *)
Example cli_status_inp_channel_3_silent :
  stdout (snd (Cli.do_status_inp 1 channel_3_silent))
  = ["Input 1 is ON"; "Input 2 is OFF"; "Input 3: No response (timeout).";
     "Input 4 is ON"; "Input 5 is OFF"; "Input 6 is OFF"; "Input 7 is OFF";
     "Input 8 is OFF"] /\
  List.length (tx (snd (Cli.do_status_inp 1 channel_3_silent))) = 8%nat.
Proof. split; vm_compute; reflexivity. Qed.

(** C8 as stated fails: in the JSON bridge the slot of the silent channel 3
    is recorded as off, like the slots of channels that answered 0. *)
Lemma json_status_silent_channel_reads_off :
  published (snd (Json.process_command 1 (Status "inputs") channel_3_silent))
  = [PJson
       (JDict
          [("cmd", JStr "status"); ("target", JStr "inputs");
           ("states",
            JList
              [JDict [("channel", JInt 1); ("state", JStr "on")];
               JDict [("channel", JInt 2); ("state", JStr "off")];
               JDict [("channel", JInt 3); ("state", JStr "off")];
               JDict [("channel", JInt 4); ("state", JStr "on")];
               JDict [("channel", JInt 5); ("state", JStr "off")];
               JDict [("channel", JInt 6); ("state", JStr "off")];
               JDict [("channel", JInt 7); ("state", JStr "off")];
               JDict [("channel", JInt 8); ("state", JStr "off")]])])].
Proof. vm_compute. reflexivity. Qed.

(** * Further properties of the code *)

(** ** Hex dump and hex parsing *)

Lemma nibble_cases (d : Z) :
  0 <= d < 16 ->
  d = 0 \/ d = 1 \/ d = 2 \/ d = 3 \/ d = 4 \/ d = 5 \/ d = 6 \/ d = 7 \/
  d = 8 \/ d = 9 \/ d = 10 \/ d = 11 \/ d = 12 \/ d = 13 \/ d = 14 \/ d = 15.
Proof. lia. Qed.

Lemma hex_digit_facts (d : Z) :
  0 <= d < 16 ->
  digit_value (hex_digit d) = Some d /\
  is_space (hex_digit d) = false /\
  Ascii.eqb (hex_digit d) " "%char = false /\
  Ascii.eqb (hex_digit d) (ascii_of_nat 10) = false.
Proof.
  intros H. pose proof (nibble_cases d H) as C.
  repeat (destruct C as [-> | C]; [repeat split; reflexivity|]).
  subst d. repeat split; reflexivity.
Qed.

Lemma byte_nibbles (x : Z) :
  is_byte x -> 0 <= x / 16 < 16 /\ 0 <= x mod 16 < 16.
Proof.
  unfold is_byte. intros H. split.
  - split; [apply Z.div_pos; lia | apply Z.div_lt_upper_bound; lia].
  - apply Z.mod_pos_bound. lia.
Qed.

Lemma nibbles_join (x : Z) : Z.shiftl (x / 16) 4 + x mod 16 = x.
Proof.
  rewrite Z.shiftl_mul_pow2 by lia. change (2 ^ 4) with 16.
  rewrite (Z.div_mod x 16) at 3 by lia. lia.
Qed.

Lemma remove_char_hex2 (c : ascii) (x : Z) (s : string) :
  is_byte x ->
  c = " "%char \/ c = ascii_of_nat 10 ->
  remove_char c (hex2 x ++ s)%string = (hex2 x ++ remove_char c s)%string.
Proof.
  intros Hx Hc. destruct (byte_nibbles x Hx) as [Hh Hl].
  destruct (hex_digit_facts _ Hh) as (_ & _ & Hs1 & Hn1).
  destruct (hex_digit_facts _ Hl) as (_ & _ & Hs2 & Hn2).
  unfold hex2. cbn [append remove_char].
  destruct Hc as [-> | ->].
  - rewrite Hs1, Hs2. reflexivity.
  - rewrite Hn1, Hn2. reflexivity.
Qed.

Lemma hexdump_cons2 (x y : Z) (l : list Z) :
  hexdump (x :: y :: l) = (hex2 x ++ " " ++ hexdump (y :: l))%string.
Proof. reflexivity. Qed.

Lemma hexdump_without_separators (b : list Z) :
  bytes_ok b ->
  remove_char (ascii_of_nat 10) (remove_char " "%char (hexdump b))
  = hex_digits b.
Proof.
  induction b as [|x [|y l] IH]; intros Hb.
  - reflexivity.
  - assert (Hx : is_byte x) by (inversion Hb; assumption).
    change (hexdump [x]) with (hex2 x ++ EmptyString)%string.
    rewrite !remove_char_hex2 by (auto; fail). reflexivity.
  - assert (Hx : is_byte x) by (inversion Hb; assumption).
    assert (Hrest : bytes_ok (y :: l)) by (inversion Hb; assumption).
    rewrite hexdump_cons2.
    rewrite remove_char_hex2 by auto.
    change (remove_char " "%char (" " ++ hexdump (y :: l))%string)
      with (remove_char " "%char (hexdump (y :: l))).
    rewrite remove_char_hex2 by auto.
    rewrite (IH Hrest). reflexivity.
Qed.

Lemma fromhex_from_hex2 (pos x : Z) (s : string) :
  is_byte x ->
  fromhex_from pos (hex2 x ++ s)%string
  = res_bind (fromhex_from (pos + 2) s) (fun tail => Ok (x :: tail)).
Proof.
  intros Hx. destruct (byte_nibbles x Hx) as [Hh Hl].
  destruct (hex_digit_facts _ Hh) as (Dh & Sh & _ & _).
  destruct (hex_digit_facts _ Hl) as (Dl & _ & _ & _).
  unfold hex2. cbn [append fromhex_from].
  rewrite Sh, Dh, Dl, nibbles_join. reflexivity.
Qed.

Lemma fromhex_from_hex_digits (b : list Z) :
  bytes_ok b -> forall pos, fromhex_from pos (hex_digits b) = Ok b.
Proof.
  induction b as [|x rest IH]; intros Hb pos.
  - reflexivity.
  - inversion Hb as [|? ? Hx Hrest]; subst.
    cbn [hex_digits]. rewrite (fromhex_from_hex2 _ _ _ Hx).
    rewrite (IH Hrest). reflexivity.
Qed.

Lemma hex_digit_ascii (d : Z) : 0 <= d < 16 -> is_ascii (hex_digit d) = true.
Proof.
  intros H. pose proof (nibble_cases d H) as C.
  repeat (destruct C as [-> | C]; [reflexivity|]).
  subst d. reflexivity.
Qed.

Lemma hex_digits_ascii (b : list Z) :
  bytes_ok b -> forall pos, first_non_ascii pos (hex_digits b) = None.
Proof.
  induction b as [|x rest IH]; intros Hb pos.
  - reflexivity.
  - inversion Hb as [|? ? Hx Hrest]; subst.
    destruct (byte_nibbles x Hx) as [Hh Hl].
    cbn [hex_digits]. unfold hex2. cbn [append first_non_ascii].
    rewrite (hex_digit_ascii _ Hh), (hex_digit_ascii _ Hl).
    apply IH, Hrest.
Qed.

(** X1. Parsing the hex dump of a byte string gives the byte string back:
    [hexstr_to_bytes (hexdump b) = b]. *)
Theorem hexstr_to_bytes_hexdump (b : list Z) :
  bytes_ok b -> hexstr_to_bytes (hexdump b) = Ok b.
Proof.
  intros Hb. unfold hexstr_to_bytes, fromhex. cbv zeta.
  rewrite (hexdump_without_separators b Hb).
  rewrite (hex_digits_ascii b Hb).
  apply fromhex_from_hex_digits, Hb.
Qed.

Lemma hexstr_to_bytes_hexdump_witness :
  hexstr_to_bytes (hexdump [0x01; 0x06; 0x00; 0xFD; 0x00; 0x00; 0x18; 0x3A])
  = Ok [0x01; 0x06; 0x00; 0xFD; 0x00; 0x00; 0x18; 0x3A].
Proof.
  apply (hexstr_to_bytes_hexdump
           [0x01; 0x06; 0x00; 0xFD; 0x00; 0x00; 0x18; 0x3A]).
  byte_list.
Defined.

Lemma digit_value_range (c : ascii) (d : Z) :
  digit_value c = Some d -> 0 <= d < 16.
Proof.
  unfold digit_value. cbv zeta.
  set (n := Z.of_nat (nat_of_ascii c)).
  destruct ((48 <=? n) && (n <=? 57)) eqn:E1.
  - intros [= <-]. apply andb_prop in E1. destruct E1 as [A B].
    apply Z.leb_le in A. apply Z.leb_le in B. lia.
  - destruct ((65 <=? n) && (n <=? 70)) eqn:E2.
    + intros [= <-]. apply andb_prop in E2. destruct E2 as [A B].
      apply Z.leb_le in A. apply Z.leb_le in B. lia.
    + destruct ((97 <=? n) && (n <=? 102)) eqn:E3; [|discriminate].
      intros [= <-]. apply andb_prop in E3. destruct E3 as [A B].
      apply Z.leb_le in A. apply Z.leb_le in B. lia.
Qed.

Lemma ok_inj {A} (a b : A) : Ok a = Ok b -> a = b.
Proof. intros E. congruence. Qed.

Lemma fromhex_from_bytes (n : nat) :
  forall s pos b,
    (String.length s <= n)%nat ->
    fromhex_from pos s = Ok b ->
    bytes_ok b /\ (2 * List.length b <= String.length s)%nat.
Proof.
  induction n as [|n IH]; intros s pos b Hn E.
  - destruct s; [|simpl in Hn; lia].
    simpl in E. injection E as <-. split; [constructor | simpl; lia].
  - destruct s as [|c rest].
    + simpl in E. injection E as <-. split; [constructor | simpl; lia].
    + cbn [fromhex_from] in E. cbn [String.length] in Hn |- *.
      destruct (is_space c).
      * destruct (IH rest (pos + 1) b ltac:(lia) E) as [Hb Hl].
        split; [exact Hb | lia].
      * destruct (digit_value c) as [top|] eqn:Dt; [|discriminate].
        destruct rest as [|c2 rest2]; [discriminate|].
        destruct (digit_value c2) as [bot|] eqn:Db; [|discriminate].
        destruct (fromhex_from (pos + 2) rest2) as [tail|e] eqn:Et;
          [|discriminate].
        unfold res_bind in E. apply ok_inj in E. subst b.
        cbn [String.length] in Hn.
        destruct (IH rest2 (pos + 2) tail ltac:(lia) Et) as [Hb Hl].
        split.
        -- apply Forall_cons; [|exact Hb].
           pose proof (digit_value_range _ _ Dt).
           pose proof (digit_value_range _ _ Db).
           rewrite Z.shiftl_mul_pow2 by lia. change (2 ^ 4) with 16.
           unfold is_byte. lia.
        -- cbn [List.length String.length]. lia.
Qed.

Lemma remove_char_length (c : ascii) (s : string) :
  (String.length (remove_char c s) <= String.length s)%nat.
Proof.
  induction s as [|x rest IH]; [simpl; lia|].
  cbn [remove_char]. destruct (Ascii.eqb x c); cbn [String.length]; lia.
Qed.

(** X2. Whatever [hexstr_to_bytes] returns is a byte string (every item in
    0..255), and each of its bytes took two characters of the text. *)
Theorem hexstr_to_bytes_gives_bytes (s : string) (b : list Z) :
  hexstr_to_bytes s = Ok b ->
  bytes_ok b /\ (2 * List.length b <= String.length s)%nat.
Proof.
  unfold hexstr_to_bytes, fromhex. cbv zeta. intros E.
  destruct (first_non_ascii 0
              (remove_char (ascii_of_nat 10) (remove_char " "%char s)));
    [discriminate E|].
  destruct (fromhex_from_bytes _ _ _ _ (le_n _) E) as [Hb Hl].
  split; [exact Hb|].
  pose proof (remove_char_length (ascii_of_nat 10) (remove_char " "%char s)).
  pose proof (remove_char_length " "%char s).
  lia.
Qed.

Lemma hexstr_to_bytes_gives_bytes_witness :
  bytes_ok [0xAB; 0xCD] /\ (2 * List.length [0xAB; 0xCD] <= String.length "ab Cd")%nat.
Proof.
  apply (hexstr_to_bytes_gives_bytes "ab Cd" [0xAB; 0xCD]). reflexivity.
Defined.

(** ** The checksum of a frame *)

Lemma xor_low_byte (r : Z) : 0 <= r -> Z.lxor r (r mod 256) = 256 * (r / 256).
Proof.
  intros Hr. apply Z.bits_inj'. intros n Hn.
  rewrite Z.lxor_spec.
  change 256 with (2 ^ 8).
  rewrite Z.mul_comm, <- Z.shiftl_mul_pow2, <- Z.shiftr_div_pow2 by lia.
  destruct (Z.lt_ge_cases n 8) as [L|G].
  - rewrite Z.mod_pow2_bits_low by lia.
    rewrite Z.shiftl_spec_low by lia. apply xorb_nilpotent.
  - rewrite Z.mod_pow2_bits_high by lia.
    rewrite Z.shiftl_spec by lia. rewrite Z.shiftr_spec by lia.
    rewrite xorb_false_r. f_equal. lia.
Qed.

Lemma crc_shift_even (m : Z) : crc_shift (2 * m) = m.
Proof.
  unfold crc_shift.
  change 1 with (Z.ones 1) at 1. rewrite Z.land_ones by lia.
  change (2 ^ 1) with 2.
  rewrite Z.mul_comm, Z.mod_mul by lia. cbn [Z.eqb].
  rewrite shiftr1_half. apply Z.div_mul. lia.
Qed.

Lemma crc_shifts_pow2 (k : nat) (h : Z) :
  crc_shifts k (2 ^ Z.of_nat k * h) = h.
Proof.
  induction k as [|k IH].
  - cbn [crc_shifts]. change (2 ^ Z.of_nat 0) with 1. lia.
  - cbn [crc_shifts].
    replace (2 ^ Z.of_nat (S k) * h) with (2 * (2 ^ Z.of_nat k * h)).
    + rewrite crc_shift_even. exact IH.
    + rewrite Nat2Z.inj_succ, Z.pow_succ_r by lia. lia.
Qed.

(** Feeding the low checksum byte leaves the high checksum byte in the
    register; feeding that one clears it. *)
Lemma crc_byte_low (r : Z) : 0 <= r -> crc_byte r (r mod 256) = r / 256.
Proof.
  intros Hr. unfold crc_byte. rewrite (xor_low_byte r Hr).
  exact (crc_shifts_pow2 8 (r / 256)).
Qed.

Lemma crc_byte_self (h : Z) : crc_byte h h = 0.
Proof. unfold crc_byte. rewrite Z.lxor_nilpotent. reflexivity. Qed.

Lemma crc_register_residue (data : list Z) :
  bytes_ok data ->
  crc_register (data ++ [crc_lo data; crc_hi data]) = 0.
Proof.
  intros Hd. pose proof (crc_register_ok data Hd) as Hr.
  unfold crc_lo, crc_hi, crc_register in *. rewrite fold_left_app.
  set (r := fold_left crc_byte data 65535) in *. clearbody r.
  cbn [fold_left].
  unfold reg_ok in Hr.
  rewrite (crc_byte_low r) by lia. apply crc_byte_self.
Qed.

Lemma crc16_of_framed (data crc : list Z) :
  bytes_ok data ->
  crc16 data = Ok crc ->
  crc16 (data ++ crc) = Ok [0; 0].
Proof.
  intros Hd E. rewrite (crc16_value data Hd) in E. injection E as <-.
  unfold crc16. fold (crc_lo data) (crc_hi data).
  rewrite (crc_register_residue data Hd). reflexivity.
Qed.

(** X3. A byte string followed by its checksum has the checksum 00 00:
    running [crc16] over a whole frame, as a receiver would, leaves the
    register at zero. *)
Theorem crc16_residue_zero (data crc : list Z) :
  bytes_ok data ->
  crc16 data = Ok crc ->
  crc16 (data ++ crc) = Ok [0; 0].
Proof.
  intros Hd E. apply crc16_of_framed; assumption.
Qed.

Lemma crc16_residue_zero_witness :
  crc16 ([0x01; 0x06; 0x00; 0x01; 0x01; 0x00] ++ [0xD9; 0x9A]) = Ok [0; 0].
Proof.
  apply (crc16_residue_zero [0x01; 0x06; 0x00; 0x01; 0x01; 0x00] [0xD9; 0x9A]).
  - byte_list.
  - reflexivity.
Defined.

Lemma no_bit_15 (a : Z) : 0 <= a < 32768 -> Z.testbit a 15 = false.
Proof.
  intros H. apply Z.testbit_false; [lia|].
  change (2 ^ 15) with 32768. rewrite Z.div_small by lia. reflexivity.
Qed.

Lemma half_range (x : Z) : reg_ok x -> 0 <= x / 2 < 32768.
Proof.
  unfold reg_ok. intros H.
  split; [apply Z.div_pos; lia | apply Z.div_lt_upper_bound; lia].
Qed.

(** The top bit of the register after a step tells whether the bit shifted
    out was set. *)
Lemma crc_shift_top_bit (x : Z) :
  reg_ok x -> Z.testbit (crc_shift x) 15 = Z.odd x.
Proof.
  intros H. rewrite crc_shift_ref. unfold ref_bit_step, ref_poly. cbv zeta.
  pose proof (no_bit_15 _ (half_range x H)) as B.
  destruct (Z.odd x).
  - rewrite Z.lxor_spec, B. reflexivity.
  - exact B.
Qed.

Lemma lxor_cancel_r (a b p : Z) : Z.lxor a p = Z.lxor b p -> a = b.
Proof.
  intros E.
  rewrite <- (Z.lxor_0_r a), <- (Z.lxor_0_r b), <- (Z.lxor_nilpotent p).
  rewrite <- !Z.lxor_assoc, E. reflexivity.
Qed.

Lemma crc_shift_inj (x y : Z) :
  reg_ok x -> reg_ok y -> crc_shift x = crc_shift y -> x = y.
Proof.
  intros Hx Hy E.
  assert (P : Z.odd x = Z.odd y).
  { rewrite <- (crc_shift_top_bit x Hx), <- (crc_shift_top_bit y Hy), E.
    reflexivity. }
  rewrite !crc_shift_ref in E. unfold ref_bit_step in E. cbv zeta in E.
  rewrite <- P in E.
  assert (Hh : x / 2 = y / 2).
  { destruct (Z.odd x); [apply lxor_cancel_r in E|]; exact E. }
  rewrite (Z.div_mod x 2), (Z.div_mod y 2) by lia.
  rewrite !Zmod_odd, <- P, Hh. reflexivity.
Qed.

Lemma crc_shifts_inj (n : nat) :
  forall x y, reg_ok x -> reg_ok y -> crc_shifts n x = crc_shifts n y -> x = y.
Proof.
  induction n as [|n IH]; intros x y Hx Hy E.
  - exact E.
  - cbn [crc_shifts] in E.
    apply crc_shift_inj; [assumption | assumption|].
    apply IH; [apply crc_shift_ok | apply crc_shift_ok |]; assumption.
Qed.

Lemma crc_byte_inj_byte (r b b' : Z) :
  reg_ok r -> is_byte b -> is_byte b' ->
  crc_byte r b = crc_byte r b' -> b = b'.
Proof.
  intros Hr Hb Hb' E. unfold crc_byte in E.
  apply crc_shifts_inj in E; [|apply crc_xor_ok; assumption..].
  rewrite (Z.lxor_comm r b), (Z.lxor_comm r b') in E.
  apply lxor_cancel_r in E. exact E.
Qed.

Lemma crc_byte_inj_reg (r r' b : Z) :
  reg_ok r -> reg_ok r' -> is_byte b ->
  crc_byte r b = crc_byte r' b -> r = r'.
Proof.
  intros Hr Hr' Hb E. unfold crc_byte in E.
  apply crc_shifts_inj in E; [|apply crc_xor_ok; assumption..].
  apply lxor_cancel_r in E. exact E.
Qed.

Lemma fold_crc_byte_inj (post : list Z) :
  bytes_ok post ->
  forall r r', reg_ok r -> reg_ok r' ->
    fold_left crc_byte post r = fold_left crc_byte post r' -> r = r'.
Proof.
  induction post as [|b post IH]; intros Hp r r' Hr Hr' E.
  - exact E.
  - inversion Hp as [|? ? Hb Hpost]; subst. cbn [fold_left] in E.
    apply IH in E; [|assumption | apply crc_byte_ok; assumption..].
    apply crc_byte_inj_reg in E; assumption.
Qed.

(** X4. Changing one byte of a byte string changes its checksum: texts
    that differ in exactly one position never share a [crc16]. *)
Theorem crc16_detects_one_changed_byte (pre post : list Z) (b b' : Z) :
  bytes_ok pre -> bytes_ok post -> is_byte b -> is_byte b' -> b <> b' ->
  crc16 (pre ++ b :: post) <> crc16 (pre ++ b' :: post).
Proof.
  intros Hpre Hpost Hb Hb' Hne E.
  assert (H1 : bytes_ok (pre ++ b :: post))
    by (apply Forall_app; split; [|constructor]; assumption).
  assert (H2 : bytes_ok (pre ++ b' :: post))
    by (apply Forall_app; split; [|constructor]; assumption).
  pose proof (crc_register_ok _ H1) as R1.
  pose proof (crc_register_ok _ H2) as R2.
  rewrite (crc16_value _ H1), (crc16_value _ H2) in E.
  assert (Er : crc_register (pre ++ b :: post)
               = crc_register (pre ++ b' :: post)).
  { apply ok_inj in E.
    set (r1 := crc_register (pre ++ b :: post)) in *.
    set (r2 := crc_register (pre ++ b' :: post)) in *.
    clearbody r1 r2.
    assert (Em : r1 mod 256 = r2 mod 256) by congruence.
    assert (Ed : r1 / 256 = r2 / 256) by congruence.
    rewrite (Z.div_mod r1 256), (Z.div_mod r2 256) by lia.
    rewrite Em, Ed. reflexivity. }
  unfold crc_register in Er. rewrite !fold_left_app in Er.
  cbn [fold_left] in Er.
  pose proof (crc_register_ok pre Hpre) as Rp. unfold crc_register in Rp.
  apply fold_crc_byte_inj in Er;
    [|assumption | apply crc_byte_ok; assumption..].
  apply crc_byte_inj_byte in Er; [|assumption..].
  contradiction.
Qed.

Lemma crc16_detects_one_changed_byte_witness :
  crc16 ([0x01; 0x06; 0x00] ++ 0x01 :: [0x01; 0x00])
  <> crc16 ([0x01; 0x06; 0x00] ++ 0x02 :: [0x01; 0x00]).
Proof.
  apply (crc16_detects_one_changed_byte [0x01; 0x06; 0x00] [0x01; 0x00] 0x01 0x02);
    try byte_list; unfold is_byte; lia.
Defined.

(** ** When the builders return a frame *)

Lemma is_byteb_spec (b : Z) : is_byteb b = true <-> is_byte b.
Proof.
  unfold is_byteb, is_byte. rewrite andb_true_iff, Z.leb_le, Z.ltb_lt.
  reflexivity.
Qed.

Lemma bytes_of_inv (l f : list Z) : bytes_of l = Ok f -> f = l /\ bytes_ok l.
Proof.
  unfold bytes_of. destruct (forallb is_byteb l) eqn:E; [|discriminate].
  intros H. apply ok_inj in H. split; [congruence|].
  unfold bytes_ok. apply Forall_forall. intros x Hx.
  apply is_byteb_spec. rewrite forallb_forall in E. apply E, Hx.
Qed.

Lemma bytes_of_bad (l : list Z) :
  forallb is_byteb l = false ->
  bytes_of l = Raise (ValueError "bytes must be in range(0, 256)").
Proof. intros E. unfold bytes_of. rewrite E. reflexivity. Qed.

(** A body of six bytes and its checksum make a frame a receiver accepts. *)
Lemma framed_inv (body f : list Z) :
  List.length body = 6%nat ->
  (frame <- bytes_of body ;; crc <- crc16 frame ;; Ok (frame ++ crc))%res = Ok f ->
  List.length f = 8%nat /\ bytes_ok f /\ crc16 f = Ok [0; 0] /\
  firstn 6 f = body.
Proof.
  intros Hlen E.
  destruct (bytes_of body) as [frame|e] eqn:Eb; [|discriminate].
  destruct (bytes_of_inv _ _ Eb) as [-> Hb].
  cbn [res_bind] in E.
  destruct (crc16_two_bytes body Hb) as (lo & hi & Ec & Hlo & Hhi).
  rewrite Ec in E. cbn [res_bind] in E. apply ok_inj in E. subst f.
  split; [rewrite length_app, Hlen; reflexivity|].
  split; [apply Forall_app; split;
          [exact Hb | apply Forall_cons; [exact Hlo|];
                      apply Forall_cons; [exact Hhi | apply Forall_nil]]|].
  split; [apply crc16_of_framed; assumption|].
  rewrite firstn_app, Hlen, Nat.sub_diag, firstn_O, app_nil_r.
  rewrite <- Hlen. apply firstn_all.
Qed.

Lemma relay_valid_spec (device channel : Z) (action : string) :
  relay_valid device channel action = true <->
  is_byte device /\ 1 <= channel <= 8 /\ (action = "on" \/ action = "off").
Proof.
  unfold relay_valid.
  rewrite !andb_true_iff, orb_true_iff, is_byteb_spec, !Z.leb_le,
    !String.eqb_eq.
  tauto.
Qed.

Lemma json_build_relay_command_fails (device channel : Z) (action : string) :
  relay_valid device channel action = false ->
  exists e, Json.build_relay_command device channel action = Raise e.
Proof.
  intros V. unfold Json.build_relay_command.
  destruct ((channel <? 1) || (8 <? channel)) eqn:G; [eexists; reflexivity|].
  destruct (String.eqb action "on") eqn:A1.
  - cbn [res_bind]. unfold relay_valid in V. rewrite A1 in V.
    rewrite orb_true_l, andb_true_r in V.
    apply orb_false_elim in G. destruct G as [G1 G2].
    apply Z.ltb_ge in G1. apply Z.ltb_ge in G2.
    apply Z.leb_le in G1. apply Z.leb_le in G2.
    rewrite G1, G2, andb_true_r in V.
    rewrite bytes_of_bad; [eexists; reflexivity|].
    cbn [forallb]. rewrite V. reflexivity.
  - destruct (String.eqb action "off") eqn:A2; [|eexists; reflexivity].
    cbn [res_bind]. unfold relay_valid in V. rewrite A1, A2 in V.
    rewrite orb_true_r, andb_true_r in V.
    apply orb_false_elim in G. destruct G as [G1 G2].
    apply Z.ltb_ge in G1. apply Z.ltb_ge in G2.
    apply Z.leb_le in G1. apply Z.leb_le in G2.
    rewrite G1, G2, andb_true_r in V.
    rewrite bytes_of_bad; [eexists; reflexivity|].
    cbn [forallb]. rewrite V. reflexivity.
Qed.

Lemma cli_build_relay_command_fails (device channel : Z) (action : string)
      (w : World) :
  relay_valid device channel action = false ->
  exists e, Cli.build_relay_command device channel action w = (Raise e, w).
Proof.
  intros V. unfold Cli.build_relay_command, bind, lift, ret.
  destruct (String.eqb action "on") eqn:A1.
  - destruct ((8 <? channel) || (channel <? 1)) eqn:G; [eexists; reflexivity|].
    unfold relay_valid in V. rewrite A1 in V.
    rewrite orb_true_l, andb_true_r in V.
    apply orb_false_elim in G. destruct G as [G2 G1].
    apply Z.ltb_ge in G1. apply Z.ltb_ge in G2.
    apply Z.leb_le in G1. apply Z.leb_le in G2.
    rewrite G1, G2, andb_true_r in V.
    rewrite bytes_of_bad; [eexists; reflexivity|].
    cbn [forallb]. rewrite V. reflexivity.
  - destruct (String.eqb action "off") eqn:A2; [|eexists; reflexivity].
    destruct ((8 <? channel) || (channel <? 1)) eqn:G; [eexists; reflexivity|].
    unfold relay_valid in V. rewrite A1, A2 in V.
    rewrite orb_true_r, andb_true_r in V.
    apply orb_false_elim in G. destruct G as [G2 G1].
    apply Z.ltb_ge in G1. apply Z.ltb_ge in G2.
    apply Z.leb_le in G1. apply Z.leb_le in G2.
    rewrite G1, G2, andb_true_r in V.
    rewrite bytes_of_bad; [eexists; reflexivity|].
    cbn [forallb]. rewrite V. reflexivity.
Qed.

(** X5. [build_relay_command] returns a frame exactly when the device fits
    a byte, the channel is in 1..8 and the action is on or off.  The JSON
    bridge and the interactive program then build the same frame (the
    latter also prints its first six bytes); when one raises so does the
    other, and the interactive one has printed nothing. *)
Theorem build_relay_command_succeeds_iff
        (device channel : Z) (action : string) (w : World) :
  succeeds (Json.build_relay_command device channel action)
  = relay_valid device channel action /\
  match Json.build_relay_command device channel action with
  | Ok f =>
      Cli.build_relay_command device channel action w
      = (Ok f, with_stdout w [("Frame without CRC: "
                               ++ hexdump (firstn 6 f))%string])
  | Raise _ =>
      exists e, Cli.build_relay_command device channel action w = (Raise e, w)
  end.
Proof.
  destruct (relay_valid device channel action) eqn:V.
  - apply relay_valid_spec in V. destruct V as (Hd & Hc & Ha).
    rewrite (json_build_relay_command_ok _ _ _ Hd Hc Ha).
    split; [reflexivity|].
    rewrite (cli_build_relay_command_ok _ _ _ w Hd Hc Ha).
    change (firstn 6 (relay_body device channel action
                      ++ [crc_lo (relay_body device channel action);
                          crc_hi (relay_body device channel action)]))
      with (relay_body device channel action).
    reflexivity.
  - destruct (json_build_relay_command_fails _ _ _ V) as [e ->].
    split; [reflexivity|].
    apply cli_build_relay_command_fails, V.
Qed.

Lemma read_addr_succeeds (device addr : Z) :
  succeeds (frame <- bytes_of [device; READ_REG;
                               Z.land (Z.shiftr addr 8) 0xFF; Z.land addr 0xFF;
                               0x00; 0x01] ;;
            crc <- crc16 frame ;; Ok (frame ++ crc))%res
  = is_byteb device.
Proof.
  destruct (is_byteb device) eqn:E.
  - apply is_byteb_spec in E. rewrite (build_read_addr device addr E).
    reflexivity.
  - rewrite bytes_of_bad; [reflexivity|].
    cbn [forallb]. rewrite E. reflexivity.
Qed.

(** X6. The read builders that go through an address ([build_read_input]
    in the three programs, [builst_read_output] in the interactive program
    and in the textual bridge) return a frame for every integer channel as
    soon as the device fits a byte, because the address is cut to two
    bytes.  The JSON bridge's [build_read_output] puts the channel in the
    frame as it is and so also needs the channel to fit a byte. *)
Theorem read_builders_succeed_iff (device n : Z) :
  succeeds (Json.build_read_input device n) = is_byteb device /\
  succeeds (Cli.build_read_input device n) = is_byteb device /\
  succeeds (Cli.builst_read_output device n) = is_byteb device /\
  succeeds (Text.builst_read_output device n) = is_byteb device /\
  succeeds (Json.build_read_output device n) = is_byteb device && is_byteb n.
Proof.
  split; [apply read_addr_succeeds|].
  split; [apply read_addr_succeeds|].
  split; [apply read_addr_succeeds|].
  split; [apply read_addr_succeeds|].
  unfold Json.build_read_output.
  destruct (is_byteb device) eqn:Ed; destruct (is_byteb n) eqn:En.
  - apply is_byteb_spec in Ed. apply is_byteb_spec in En.
    rewrite (read_frame device 0 n Ed zero_is_byte En). reflexivity.
  - rewrite bytes_of_bad; [reflexivity|].
    cbn [forallb]. rewrite Ed, En. reflexivity.
  - rewrite bytes_of_bad; [reflexivity|].
    cbn [forallb]. rewrite Ed. reflexivity.
  - rewrite bytes_of_bad; [reflexivity|].
    cbn [forallb]. rewrite Ed. reflexivity.
Qed.

Lemma address_bytes (a : Z) :
  Z.land (Z.shiftr a 8) 0xFF = (a mod 65536) / 256 /\
  Z.land a 0xFF = (a mod 65536) mod 256.
Proof.
  change 255 with (Z.ones 8). rewrite !Z.land_ones by lia.
  rewrite Z.shiftr_div_pow2 by lia. change (2 ^ 8) with 256.
  change 65536 with (256 * 256).
  rewrite Z.rem_mul_r by lia.
  pose proof (Z.mod_pos_bound a 256 ltac:(lia)) as Hlo.
  pose proof (Z.mod_pos_bound (a / 256) 256 ltac:(lia)) as Hhi.
  split.
  - apply Z.div_unique with (r := a mod 256); lia.
  - apply Z.mod_unique with (q := (a / 256) mod 256); lia.
Qed.

(** X7. The register address of a read request is a 16 bit big-endian
    number taken modulo 2^16: for every integer input number the frame of
    [build_read_input] carries 0x0080 + n modulo 65536, high byte first,
    and the interactive program's [builst_read_output] carries n + 1 in
    the same way.  Input numbers 65536 apart give the same frame. *)
Theorem read_address_is_big_endian_mod_65536 (device n : Z) :
  is_byte device ->
  (exists c0 c1,
      Json.build_read_input device n
      = Ok [device; 0x03;
            ((0x0080 + n) mod 65536) / 256; ((0x0080 + n) mod 65536) mod 256;
            0x00; 0x01; c0; c1]) /\
  (exists c0 c1,
      Cli.builst_read_output device n
      = Ok [device; 0x03;
            ((n + 1) mod 65536) / 256; ((n + 1) mod 65536) mod 256;
            0x00; 0x01; c0; c1]) /\
  Json.build_read_input device (n + 65536) = Json.build_read_input device n /\
  Cli.builst_read_output device (n + 65536) = Cli.builst_read_output device n.
Proof.
  intros Hd.
  assert (W : forall a, (a + 65536) mod 65536 = a mod 65536).
  { intros a. replace (a + 65536) with (a + 1 * 65536) by lia.
    apply Z.mod_add. lia. }
  split; [|split; [|split]].
  - unfold Json.build_read_input. cbv zeta.
    rewrite (build_read_addr device (0x0080 + n) Hd).
    destruct (address_bytes (0x0080 + n)) as [-> ->].
    eexists. eexists. reflexivity.
  - unfold Cli.builst_read_output. cbv zeta.
    rewrite (build_read_addr device (n + 1) Hd).
    destruct (address_bytes (n + 1)) as [-> ->].
    eexists. eexists. reflexivity.
  - unfold Json.build_read_input. cbv zeta.
    destruct (address_bytes (0x0080 + n)) as [-> ->].
    destruct (address_bytes (0x0080 + (n + 65536))) as [-> ->].
    replace (0x0080 + (n + 65536)) with (0x0080 + n + 65536) by lia.
    rewrite W. reflexivity.
  - unfold Cli.builst_read_output. cbv zeta.
    destruct (address_bytes (n + 1)) as [-> ->].
    destruct (address_bytes (n + 65536 + 1)) as [-> ->].
    replace (n + 65536 + 1) with (n + 1 + 65536) by lia.
    rewrite W. reflexivity.
Qed.

Lemma read_address_is_big_endian_mod_65536_witness :
  (exists c0 c1,
      Json.build_read_input 1 300
      = Ok [1; 0x03;
            ((0x0080 + 300) mod 65536) / 256; ((0x0080 + 300) mod 65536) mod 256;
            0x00; 0x01; c0; c1]) /\
  (exists c0 c1,
      Cli.builst_read_output 1 300
      = Ok [1; 0x03;
            ((300 + 1) mod 65536) / 256; ((300 + 1) mod 65536) mod 256;
            0x00; 0x01; c0; c1]) /\
  Json.build_read_input 1 (300 + 65536) = Json.build_read_input 1 300 /\
  Cli.builst_read_output 1 (300 + 65536) = Cli.builst_read_output 1 300.
Proof.
  apply (read_address_is_big_endian_mod_65536 1 300). unfold is_byte. lia.
Defined.

Lemma json_build_relay_command_inv (device channel : Z) (action : string)
      (f : list Z) :
  Json.build_relay_command device channel action = Ok f ->
  exists body,
    List.length body = 6%nat /\
    (frame <- bytes_of body ;; crc <- crc16 frame ;; Ok (frame ++ crc))%res
    = Ok f.
Proof.
  unfold Json.build_relay_command.
  destruct ((channel <? 1) || (8 <? channel)); [discriminate|].
  destruct (String.eqb action "on").
  - cbn [res_bind]. intros E. eexists. split; [|exact E]. reflexivity.
  - destruct (String.eqb action "off"); [|discriminate].
    cbn [res_bind]. intros E. eexists. split; [|exact E]. reflexivity.
Qed.

(** X8. Every frame a builder returns can go on the wire as it is: it has
    exactly eight bytes, each in 0..255, and its last two bytes are the
    checksum of the first six, so that [crc16] over the whole frame gives
    00 00. *)
Theorem built_frames_are_well_formed
        (device n : Z) (action : string) (f : list Z) :
  Json.build_relay_command device n action = Ok f \/
  Json.build_read_input device n = Ok f \/
  Json.build_read_output device n = Ok f \/
  Cli.builst_read_output device n = Ok f \/
  Text.builst_read_output device n = Ok f ->
  List.length f = 8%nat /\ bytes_ok f /\
  crc16 (firstn 6 f) = Ok (skipn 6 f) /\
  crc16 f = Ok [0; 0].
Proof.
  intros H.
  assert (B : exists body,
             List.length body = 6%nat /\
             (frame <- bytes_of body ;; crc <- crc16 frame ;;
              Ok (frame ++ crc))%res = Ok f).
  { destruct H as [H | [H | [H | [H | H]]]].
    - apply json_build_relay_command_inv in H. exact H.
    - eexists. split; [|exact H]. reflexivity.
    - eexists. split; [|exact H]. reflexivity.
    - eexists. split; [|exact H]. reflexivity.
    - eexists. split; [|exact H]. reflexivity. }
  destruct B as (body & Hlen & E).
  destruct (framed_inv body f Hlen E) as (L & Hb & R & F).
  split; [exact L|]. split; [exact Hb|]. split; [|exact R].
  rewrite F.
  destruct (bytes_of body) as [frame|e] eqn:Eb; [|discriminate].
  destruct (bytes_of_inv _ _ Eb) as [-> Hbody].
  cbn [res_bind] in E.
  destruct (crc16 body) as [crc|e] eqn:Ec; [|discriminate].
  cbn [res_bind] in E. apply ok_inj in E. subst f.
  rewrite skipn_app, Hlen, Nat.sub_diag, skipn_O.
  rewrite <- Hlen, skipn_all. reflexivity.
Qed.

Lemma built_frames_are_well_formed_witness :
  List.length [0x01; 0x03; 0x00; 0x81; 0x00; 0x01; 0xD4; 0x22] = 8%nat /\
  bytes_ok [0x01; 0x03; 0x00; 0x81; 0x00; 0x01; 0xD4; 0x22] /\
  crc16 (firstn 6 [0x01; 0x03; 0x00; 0x81; 0x00; 0x01; 0xD4; 0x22])
  = Ok (skipn 6 [0x01; 0x03; 0x00; 0x81; 0x00; 0x01; 0xD4; 0x22]) /\
  crc16 [0x01; 0x03; 0x00; 0x81; 0x00; 0x01; 0xD4; 0x22] = Ok [0; 0].
Proof.
  apply (built_frames_are_well_formed 1 1 "on"
           [0x01; 0x03; 0x00; 0x81; 0x00; 0x01; 0xD4; 0x22]).
  right. left. vm_compute. reflexivity.
Defined.

(** ** Loops over the channels *)

(** A loop that, for every channel, builds a frame, exchanges it with the
    device and then deals with the bytes read.  Building and dealing with
    the reply touch nothing but the console; they are described by the
    frame and the lines they produce. *)
Section PollLoop.

Variable S : Type.
Variable build : Z -> IO (list Z).
Variable finish : S -> Z -> list Z -> IO S.
Variable good : list Z -> Prop.
Variable frame_of : Z -> list Z.
Variable build_lines : Z -> list string.
Variable state_after : S -> Z -> list Z -> S.
Variable finish_lines : S -> Z -> list Z -> list string.

Hypothesis finish_ok : forall s i resp w,
    good resp ->
    exists w',
      finish s i resp w = (Ok (state_after s i resp), w') /\
      only_printed w w' (finish_lines s i resp).

Lemma poll_loop (chs : list Z) :
  Forall (fun i => forall w,
              exists w',
                build i w = (Ok (frame_of i), w') /\
                only_printed w w' (build_lines i))
         chs ->
  forall s w,
    Forall good (poll_replies (List.length chs) (script w)) ->
    exists w',
      for_acc chs s (poll_body build finish) w
      = (Ok (poll_state state_after s
                        (combine chs (poll_replies (List.length chs)
                                                   (script w)))),
         w') /\
      tx w' = tx w ++ map frame_of chs /\
      stdout w'
      = stdout w
        ++ poll_lines build_lines state_after finish_lines s
                      (combine chs (poll_replies (List.length chs)
                                                 (script w))) /\
      published w' = published w.
Proof.
  induction chs as [|ch chs IH]; intros Hb s w Hr.
  - exists w. cbn. rewrite !app_nil_r. repeat split.
  - pose proof (Forall_inv Hb) as Hb1.
    pose proof (Forall_inv_tail Hb) as Hbs.
    rewrite poll_replies_cons in Hr.
    pose proof (Forall_inv Hr) as Hr1.
    pose proof (Forall_inv_tail Hr) as Hrs.
    destruct (Hb1 w) as (wb & Eb & Sb & Tb & Pb & Ob).
    set (resp := firstn 256 (hd [] (script w))) in *.
    set (w1 := mkWorld (tl (script w)) (skipn 256 (hd [] (script w)))
                       (tx w ++ [frame_of ch])
                       (stdout w ++ build_lines ch) (published w)).
    destruct (finish_ok s ch resp w1 Hr1) as (wf & Ef & Sf & Tf & Pf & Of).
    cbn [script tx published stdout w1] in Sf, Tf, Pf, Of.
    rewrite <- Sf in Hrs.
    destruct (IH Hbs (state_after s ch resp) wf Hrs)
      as (w' & Erun & Etx & Eout & Epub).
    exists w'. split.
    + rewrite poll_replies_cons. fold resp. cbn [for_acc combine poll_state].
      unfold bind at 1. unfold poll_body at 1. unfold bind at 1.
      rewrite Eb. unfold bind at 1. rewrite exchange_run.
      rewrite Sb, Tb, Pb, Ob. fold resp. fold w1. rewrite Ef.
      rewrite Sf in Erun. exact Erun.
    + rewrite poll_replies_cons. fold resp. cbn [combine poll_lines map].
      split; [rewrite Etx, Tf, <- app_assoc; reflexivity|].
      split; [|rewrite Epub, Pf; reflexivity].
      rewrite Eout, Of, Sf, <- !app_assoc. reflexivity.
Qed.

End PollLoop.

(** ** The JSON bridge answers every command *)

Lemma quiet_lift {A} (r : res A) : quiet_run (lift r).
Proof. intros w. split; reflexivity. Qed.

Lemma quiet_ret {A} (a : A) : quiet_run (ret a).
Proof. intros w. split; reflexivity. Qed.

Lemma quiet_exchange (frame : list Z) : quiet_run (exchange frame).
Proof. intros w. rewrite exchange_run. split; reflexivity. Qed.

Lemma quiet_bind {A B} (m : IO A) (k : A -> IO B) :
  quiet_run m -> (forall a, quiet_run (k a)) -> quiet_run (bind m k).
Proof.
  intros Hm Hk w. unfold bind.
  destruct (Hm w) as [P O]. destruct (m w) as [[a|e] w1]; cbn [snd] in *.
  - destruct (Hk a w1) as [P1 O1]. rewrite P1, O1. split; assumption.
  - split; assumption.
Qed.

Lemma quiet_for_acc {A S} (body : S -> A -> IO S) (items : list A) :
  (forall s x, quiet_run (body s x)) ->
  forall s, quiet_run (for_acc items s body).
Proof.
  intros Hb. induction items as [|x items IH]; intros s.
  - apply quiet_ret.
  - cbn [for_acc]. apply quiet_bind; [apply Hb | intros a; apply IH].
Qed.

Lemma answers_publish (obj : json) : answers_once (Json.publish_json obj).
Proof.
  intros w. left. eexists. exists obj. split; [reflexivity|].
  split; reflexivity.
Qed.

Lemma answers_bind {A} (m : IO A) (k : A -> IO unit) :
  quiet_run m -> (forall a, answers_once (k a)) -> answers_once (bind m k).
Proof.
  intros Hm Hk w. unfold bind.
  destruct (Hm w) as [P O]. destruct (m w) as [[a|e] w1]; cbn [snd] in *.
  - destruct (Hk a w1) as [(w' & msg & E & P1 & O1) | (e & w' & E & P1 & O1)].
    + left. exists w', msg. rewrite E, P1, O1, P, O. repeat split.
    + right. exists e, w'. rewrite E, P1, O1, P, O. repeat split.
  - right. exists e, w1. repeat split; assumption.
Qed.

Lemma json_body_answers_once (device : Z) (data : command) :
  answers_once
    (match data with
     | Output ch state =>
         bind (lift (Json.build_relay_command device ch state)) (fun frame =>
         bind (exchange frame) (fun resp =>
         Json.publish_json (JDict [("result", JStr "ok");
                                   ("cmd", JStr "output");
                                   ("channel", JInt ch);
                                   ("state", JStr state);
                                   ("response", JStr (hexdump resp))])))
     | OutputAll state =>
         bind (for_acc (range 1 9) [] (Json.output_all_body device state))
              (fun results =>
         Json.publish_json (JDict [("result", JStr "ok");
                                   ("cmd", JStr "output_all");
                                   ("state", JStr state);
                                   ("outputs", JList results)]))
     | Input ch =>
         bind (lift (Json.build_read_input device ch)) (fun frame =>
         bind (exchange frame) (fun resp =>
         bind (lift (Json.state_of resp)) (fun st =>
         Json.publish_json (JDict [("cmd", JStr "input");
                                   ("input", JInt ch);
                                   ("state", JStr st);
                                   ("raw", JStr (hexdump resp))]))))
     | Status target =>
         bind (for_acc (range 1 9) [] (Json.status_body device target))
              (fun states =>
         Json.publish_json (JDict [("cmd", JStr "status");
                                   ("target", JStr target);
                                   ("states", JList states)]))
     | OtherCommand =>
         Json.publish_json (JDict [("result", JStr "error");
                                   ("message", JStr "Unknown command")])
     end).
Proof.
  destruct data as [ch state | state | ch | target |].
  - apply answers_bind; [apply quiet_lift|]. intros frame.
    apply answers_bind; [apply quiet_exchange|]. intros resp.
    apply answers_publish.
  - apply answers_bind; [|intros; apply answers_publish].
    apply quiet_for_acc. intros s i. unfold Json.output_all_body.
    apply quiet_bind; [apply quiet_lift|]. intros frame.
    apply quiet_bind; [apply quiet_exchange|]. intros resp.
    apply quiet_ret.
  - apply answers_bind; [apply quiet_lift|]. intros frame.
    apply answers_bind; [apply quiet_exchange|]. intros resp.
    apply answers_bind; [apply quiet_lift|]. intros st.
    apply answers_publish.
  - apply answers_bind; [|intros; apply answers_publish].
    apply quiet_for_acc. intros s i. unfold Json.status_body.
    apply quiet_bind; [apply quiet_lift|]. intros frame.
    apply quiet_bind; [apply quiet_exchange|]. intros resp.
    apply quiet_bind; [apply quiet_lift|]. intros st.
    apply quiet_ret.
  - apply answers_publish.
Qed.

(** X9. Once the fields of the inbound object have been read (the five
    shapes of [command]), the JSON bridge's [process_command] never lets an
    exception out and answers with exactly one published message, whatever
    the command, the device address and the bytes that come back; it
    prints nothing.  When the command fails the message is the error
    object carrying the text of the exception. *)
Theorem json_process_command_always_answers
        (device : Z) (data : command) (w : World) :
  exists w' msg,
    Json.process_command device data w = (Ok tt, w') /\
    published w' = published w ++ [PJson msg] /\
    stdout w' = stdout w.
Proof.
  unfold Json.process_command, try_except.
  destruct (json_body_answers_once device data w)
    as [(w' & msg & E & P & O) | (e & w' & E & P & O)].
  - exists w', msg. rewrite E. repeat split; assumption.
  - rewrite E. eexists. eexists. split; [reflexivity|].
    cbn [published stdout]. rewrite P, O. split; reflexivity.
Qed.

(** ** Switching all outputs *)

Lemma poll_state_append {E} (f : Z * list Z -> E) (slots : list (Z * list Z)) :
  forall s,
    poll_state (fun s i resp => s ++ [f (i, resp)]) s slots
    = s ++ map f slots.
Proof.
  induction slots as [|[i resp] slots IH]; intros s.
  - cbn. rewrite app_nil_r. reflexivity.
  - cbn [poll_state map]. rewrite IH, <- app_assoc. reflexivity.
Qed.

Lemma poll_lines_nothing {S} (state_after : S -> Z -> list Z -> S)
      (slots : list (Z * list Z)) :
  forall s,
    poll_lines (fun _ => []) state_after (fun _ _ _ => []) s slots = [].
Proof.
  induction slots as [|[i resp] slots IH]; intros s; [reflexivity|].
  cbn [poll_lines]. rewrite IH. reflexivity.
Qed.

Lemma only_printed_refl (w : World) : only_printed w w [].
Proof. unfold only_printed. rewrite app_nil_r. repeat split. Qed.

Lemma all_replies_good (n : nat) :
  forall scr, Forall (fun _ : list Z => True) (poll_replies n scr).
Proof.
  induction n as [|n IH]; intros scr; [constructor|].
  change (poll_replies (S n) scr)
    with (firstn 256 (hd [] scr) :: poll_replies n (tl scr)).
  constructor; [exact I | apply IH].
Qed.


Lemma channels_in_range : Forall (fun ch => 1 <= ch <= 8) [1; 2; 3; 4; 5; 6; 7; 8].
Proof. repeat (apply Forall_cons; [lia|]). apply Forall_nil. Qed.



Lemma invalid_action_tests (state : string) :
  state <> "on" -> state <> "off" ->
  String.eqb state "on" = false /\ String.eqb state "off" = false.
Proof.
  intros H1 H2. split; apply String.eqb_neq; assumption.
Qed.

(** X11. A state other than on and off never reaches the device.  The JSON
    bridge's [output] (for a channel in 1..8) and [output_all] write no
    frame and publish the error "action must be 'on' or 'off'"; the
    interactive program's and the textual bridge's [out] raise that error
    for any channel without writing a frame, the textual bridge having
    printed the device, channel and state before. *)
Theorem invalid_state_writes_no_frame
        (device ch : Z) (state : string) (w : World) :
  state <> "on" -> state <> "off" ->
  (1 <= ch <= 8 ->
   Json.process_command device (Output ch state) w
   = (Ok tt,
      mkWorld (script w) (rx w) (tx w) (stdout w)
              (published w
               ++ [PJson (JDict [("result", JStr "error");
                                 ("message",
                                  JStr "action must be 'on' or 'off'")])]))) /\
  Json.process_command device (OutputAll state) w
  = (Ok tt,
     mkWorld (script w) (rx w) (tx w) (stdout w)
             (published w
              ++ [PJson (JDict [("result", JStr "error");
                                ("message",
                                 JStr "action must be 'on' or 'off'")])])) /\
  Cli.do_out device ch state w = (Raise action_error, w) /\
  Text.do_out device ch state w
  = (Raise action_error,
     with_stdout w [(dec device ++ " " ++ dec ch ++ " " ++ state)%string]).
Proof.
  intros H1 H2. destruct (invalid_action_tests state H1 H2) as [E1 E2].
  assert (EC : forall c w0,
             Cli.build_relay_command device c state w0
             = (Raise action_error, w0)).
  { intros c w0. unfold Cli.build_relay_command, bind, lift.
    rewrite E1, E2. reflexivity. }
  split; [|split; [|split]].
  - intros Hc. unfold Json.process_command, try_except, bind, lift.
    unfold Json.build_relay_command.
    rewrite (proj1 (channel_in_range _ Hc)), E1, E2. reflexivity.
  - unfold Json.process_command, try_except. rewrite range_1_9.
    cbn [for_acc]. unfold bind at 1. unfold bind at 1.
    unfold Json.output_all_body at 1. unfold bind at 1. unfold lift at 1.
    unfold Json.build_relay_command.
    change ((1 <? 1) || (8 <? 1)) with false. cbn iota.
    rewrite E1, E2. reflexivity.
  - unfold Cli.do_out, bind. rewrite EC. reflexivity.
  - unfold Text.do_out, bind, sleep, ret, Text.build_relay_command.
    unfold print at 1. rewrite EC. reflexivity.
Qed.

Lemma invalid_state_writes_no_frame_witness :
  (1 <= 3 <= 8 ->
   Json.process_command 1 (Output 3 "ON") quiet_world
   = (Ok tt,
      mkWorld (script quiet_world) (rx quiet_world) (tx quiet_world)
              (stdout quiet_world)
              (published quiet_world
               ++ [PJson (JDict [("result", JStr "error");
                                 ("message",
                                  JStr "action must be 'on' or 'off'")])]))) /\
  Json.process_command 1 (OutputAll "ON") quiet_world
  = (Ok tt,
     mkWorld (script quiet_world) (rx quiet_world) (tx quiet_world)
             (stdout quiet_world)
             (published quiet_world
              ++ [PJson (JDict [("result", JStr "error");
                                ("message",
                                 JStr "action must be 'on' or 'off'")])])) /\
  Cli.do_out 1 3 "ON" quiet_world = (Raise action_error, quiet_world) /\
  Text.do_out 1 3 "ON" quiet_world
  = (Raise action_error,
     with_stdout quiet_world [(dec 1 ++ " " ++ dec 3 ++ " " ++ "ON")%string]).
Proof.
  apply (invalid_state_writes_no_frame 1 3 "ON" quiet_world); discriminate.
Defined.

Lemma cli_relay_builds (device : Z) (action : string) (chs : list Z) :
  is_byte device -> action = "on" \/ action = "off" ->
  Forall (fun ch => 1 <= ch <= 8) chs ->
  Forall (fun i => forall w,
              exists w',
                Cli.build_relay_command device i action w
                = (Ok (relay_frame device i action), w') /\
                only_printed w w' [frame_line device action i])
         chs.
Proof.
  intros Hd Ha Hc. apply Forall_forall. intros ch Hin w.
  rewrite Forall_forall in Hc.
  rewrite (cli_build_relay_command_ok device ch action w Hd (Hc ch Hin) Ha).
  eexists. split; [reflexivity|]. repeat split.
Qed.

Lemma cli_relay_frames (device : Z) (action : string) :
  is_byte device -> action = "on" \/ action = "off" ->
  Forall (fun ch => forall w0,
              fst (Cli.build_relay_command device ch action w0)
              = Ok (relay_frame device ch action))
         [1; 2; 3; 4; 5; 6; 7; 8].
Proof.
  intros Hd Ha. apply Forall_forall. intros ch Hin w0.
  pose proof channels_in_range as Hc. rewrite Forall_forall in Hc.
  rewrite (cli_build_relay_command_ok device ch action w0 Hd (Hc ch Hin) Ha).
  reflexivity.
Qed.

(** X12. For a device that fits a byte, the interactive program's
    [on all] and [off all] write the eight relay frames of channels 1 to 8
    in ascending order and print, for each channel in turn, the frame
    without its checksum and the hex dump of the bytes read back.  They
    publish nothing and no reply makes them fail. *)
Theorem cli_do_all_writes_eight_frames
        (device : Z) (action word : string) (w : World) :
  is_byte device -> action = "on" \/ action = "off" ->
  Forall (fun ch => forall w0,
              fst (Cli.build_relay_command device ch action w0)
              = Ok (relay_frame device ch action))
         [1; 2; 3; 4; 5; 6; 7; 8] /\
  exists w',
    Cli.do_all device action word w = (Ok tt, w') /\
    tx w' = tx w ++ map (fun ch => relay_frame device ch action)
                        [1; 2; 3; 4; 5; 6; 7; 8] /\
    stdout w'
    = stdout w
      ++ flat_map (fun slot =>
                     [frame_line device action (fst slot);
                      ("Channel " ++ dec (fst slot) ++ " " ++ word
                       ++ " response: " ++ hexdump (snd slot))%string])
                  (combine [1; 2; 3; 4; 5; 6; 7; 8]
                           (poll_replies 8 (script w))) /\
    published w' = published w.
Proof.
  intros Hd Ha. split; [apply cli_relay_frames; assumption|].
  destruct (poll_loop unit
              (fun i => Cli.build_relay_command device i action)
              (fun _ i resp => Cli.report_write word i resp)
              (fun _ => True)
              (fun ch => relay_frame device ch action)
              (fun i => [frame_line device action i])
              (fun _ _ _ => tt)
              (fun _ i resp =>
                 [("Channel " ++ dec i ++ " " ++ word ++ " response: "
                   ++ hexdump resp)%string])
              (fun s i resp w0 _ =>
                 ex_intro _ _ (conj eq_refl
                                    (conj eq_refl
                                          (conj eq_refl
                                                (conj eq_refl eq_refl)))))
              [1; 2; 3; 4; 5; 6; 7; 8]
              (cli_relay_builds device action _ Hd Ha channels_in_range)
              tt w (all_replies_good 8 (script w)))
    as (w' & Erun & Etx & Eout & Epub).
  exists w'. split; [|split; [exact Etx | split; [|exact Epub]]].
  - unfold Cli.do_all, for_each. rewrite range_1_9.
    assert (Es : forall slots,
               poll_state (fun (_ : unit) (_ : Z) (_ : list Z) => tt) tt slots
               = tt).
    { induction slots as [|[i r] slots IHs]; [reflexivity | exact IHs]. }
    rewrite Es in Erun. exact Erun.
  - rewrite Eout. f_equal.
Qed.

Lemma cli_do_all_writes_eight_frames_witness :
  Forall (fun ch => forall w0,
              fst (Cli.build_relay_command 1 ch "on" w0)
              = Ok (relay_frame 1 ch "on"))
         [1; 2; 3; 4; 5; 6; 7; 8] /\
  exists w',
    Cli.do_all 1 "on" "ON" channel_3_silent = (Ok tt, w') /\
    tx w' = tx channel_3_silent
            ++ map (fun ch => relay_frame 1 ch "on") [1; 2; 3; 4; 5; 6; 7; 8] /\
    stdout w'
    = stdout channel_3_silent
      ++ flat_map (fun slot =>
                     [frame_line 1 "on" (fst slot);
                      ("Channel " ++ dec (fst slot) ++ " " ++ "ON"
                       ++ " response: " ++ hexdump (snd slot))%string])
                  (combine [1; 2; 3; 4; 5; 6; 7; 8]
                           (poll_replies 8 (script channel_3_silent))) /\
    published w' = published channel_3_silent.
Proof.
  apply (cli_do_all_writes_eight_frames 1 "on" "ON" channel_3_silent).
  - unfold is_byte. lia.
  - left. reflexivity.
Defined.

Lemma record_write_appends (word colon : string) (messages : list string)
      (i : Z) (resp : list Z) :
  Text.record_write word colon messages i resp
  = messages ++ [text_all_line word colon (i, resp)].
Proof.
  unfold Text.record_write, text_all_line. cbn [fst snd].
  destruct (0 <? len resp); reflexivity.
Qed.

(** X13. For a device that fits a byte, the textual bridge's [on all] and
    [off all] write the eight relay frames of channels 1 to 8 in ascending
    order and then publish a single text: the lines gathered so far
    followed by one line per channel, in order, joined by line feeds.  A
    channel that sent bytes back gets their hex dump, a silent one the
    words No response (timeout); no reply makes the command fail. *)
Theorem text_do_all_publishes_one_report
        (device : Z) (action word colon : string) (messages : list string)
        (w : World) :
  is_byte device -> action = "on" \/ action = "off" ->
  Forall (fun ch => forall w0,
              fst (Text.build_relay_command device ch action w0)
              = Ok (relay_frame device ch action))
         [1; 2; 3; 4; 5; 6; 7; 8] /\
  exists w',
    Text.do_all device action word colon messages w = (Ok tt, w') /\
    tx w' = tx w ++ map (fun ch => relay_frame device ch action)
                        [1; 2; 3; 4; 5; 6; 7; 8] /\
    published w'
    = published w
      ++ [PText (join_lines
                   (messages
                    ++ map (text_all_line word colon)
                           (combine [1; 2; 3; 4; 5; 6; 7; 8]
                                    (poll_replies 8 (script w)))))] /\
    stdout w'
    = stdout w
      ++ map (frame_line device action) [1; 2; 3; 4; 5; 6; 7; 8]
      ++ [("Publishing message: "
           ++ join_lines
                (messages
                 ++ map (text_all_line word colon)
                        (combine [1; 2; 3; 4; 5; 6; 7; 8]
                                 (poll_replies 8 (script w)))))%string].
Proof.
  intros Hd Ha. split; [apply cli_relay_frames; assumption|].
  destruct (poll_loop (list string)
              (fun i => Text.build_relay_command device i action)
              (fun messages i resp =>
                 ret (Text.record_write word colon messages i resp))
              (fun _ => True)
              (fun ch => relay_frame device ch action)
              (fun i => [frame_line device action i])
              (fun s i resp => s ++ [text_all_line word colon (i, resp)])
              (fun _ _ _ => [])
              (fun s i resp w0 _ =>
                 ex_intro _ w0
                          (conj (f_equal (fun m => (Ok m, w0))
                                         (record_write_appends word colon s i resp))
                                (only_printed_refl w0)))
              [1; 2; 3; 4; 5; 6; 7; 8]
              (cli_relay_builds device action _ Hd Ha channels_in_range)
              messages w (all_replies_good 8 (script w)))
    as (w1 & Erun & Etx & Eout & Epub).
  rewrite poll_state_append in Erun.
  eexists. split; [|split; [|split]].
  - unfold Text.do_all. rewrite range_1_9. unfold bind at 1.
    change (fun (messages0 : list string) (i : Z) =>
              bind (Text.build_relay_command device i action)
                   (fun frame =>
                      bind (exchange frame)
                           (fun resp =>
                              ret (Text.record_write word colon messages0 i resp))))
      with (poll_body (fun i => Text.build_relay_command device i action)
                      (fun messages i resp =>
                         ret (Text.record_write word colon messages i resp))).
    rewrite Erun. cbv zeta. rewrite print_pubish_one. reflexivity.
  - cbn [tx with_text]. exact Etx.
  - cbn [published with_text]. rewrite Epub. reflexivity.
  - cbn [stdout with_text]. rewrite Eout, <- app_assoc. reflexivity.
Qed.

Lemma text_do_all_publishes_one_report_witness :
  Forall (fun ch => forall w0,
              fst (Text.build_relay_command 1 ch "off" w0)
              = Ok (relay_frame 1 ch "off"))
         [1; 2; 3; 4; 5; 6; 7; 8] /\
  exists w',
    Text.do_all 1 "off" "OFF" ":" ["Processing command: off all"]
                channel_3_silent = (Ok tt, w') /\
    tx w' = tx channel_3_silent
            ++ map (fun ch => relay_frame 1 ch "off") [1; 2; 3; 4; 5; 6; 7; 8] /\
    published w'
    = published channel_3_silent
      ++ [PText (join_lines
                   (["Processing command: off all"]
                    ++ map (text_all_line "OFF" ":")
                           (combine [1; 2; 3; 4; 5; 6; 7; 8]
                                    (poll_replies 8 (script channel_3_silent)))))] /\
    stdout w'
    = stdout channel_3_silent
      ++ map (frame_line 1 "off") [1; 2; 3; 4; 5; 6; 7; 8]
      ++ [("Publishing message: "
           ++ join_lines
                (["Processing command: off all"]
                 ++ map (text_all_line "OFF" ":")
                        (combine [1; 2; 3; 4; 5; 6; 7; 8]
                                 (poll_replies 8 (script channel_3_silent)))))%string].
Proof.
  apply (text_do_all_publishes_one_report
           1 "off" "OFF" ":" ["Processing command: off all"] channel_3_silent).
  - unfold is_byte. lia.
  - right. reflexivity.
Defined.

Lemma text_report_decodable (messages : list string) (i : Z) (resp : list Z)
      (w : World) :
  decodable resp ->
  Text.report messages i resp w
  = (Ok (messages ++ [text_status_line (i, resp)]), w).
Proof.
  intros [-> | H]; [reflexivity|].
  destruct (index_long resp H) as (b & E & _).
  rewrite (text_report_long messages i resp b w E).
  unfold text_status_line, outcome_of, on_off_line. cbn [fst snd].
  destruct resp as [|x rest]; [discriminate E|].
  rewrite (nth_error_nth_4 _ _ E). destruct (b =? 1); reflexivity.
Qed.

Lemma text_status_loop (device : Z) (build : Z -> Z -> res (list Z))
      (addr : Z -> Z) (messages : list string) (w : World) :
  (forall i, build device i = Ok (addr_frame device (addr i))) ->
  Forall decodable (poll_replies 8 (script w)) ->
  exists w',
    bind (for_acc [1; 2; 3; 4; 5; 6; 7; 8] messages
                  (fun messages i =>
                     bind (lift (build device i)) (fun frame =>
                     bind (exchange frame) (fun resp =>
                     Text.report messages i resp))))
         (fun messages => Text.print_pubish [join_lines messages]) w
    = (Ok tt, w') /\
    tx w' = tx w ++ map (fun ch => addr_frame device (addr ch))
                        [1; 2; 3; 4; 5; 6; 7; 8] /\
    published w'
    = published w
      ++ [PText (join_lines
                   (messages
                    ++ map text_status_line
                           (combine [1; 2; 3; 4; 5; 6; 7; 8]
                                    (poll_replies 8 (script w)))))].
Proof.
  intros Hb Hr.
  destruct (poll_loop (list string)
              (fun i => lift (build device i))
              Text.report
              decodable
              (fun ch => addr_frame device (addr ch))
              (fun _ => [])
              (fun s i resp => s ++ [text_status_line (i, resp)])
              (fun _ _ _ => [])
              (fun s i resp w0 Hg =>
                 ex_intro _ w0 (conj (text_report_decodable s i resp w0 Hg)
                                     (only_printed_refl w0)))
              [1; 2; 3; 4; 5; 6; 7; 8])
    with (s := messages) (w := w)
    as (w1 & Erun & Etx & _ & Epub).
  { apply Forall_forall. intros ch _ w0. exists w0.
    unfold lift. rewrite Hb. split; [reflexivity | apply only_printed_refl]. }
  { exact Hr. }
  rewrite poll_state_append in Erun.
  eexists. split; [|split].
  - unfold bind at 1.
    change (fun (messages0 : list string) (i : Z) =>
              bind (lift (build device i))
                   (fun frame =>
                      bind (exchange frame)
                           (fun resp => Text.report messages0 i resp)))
      with (poll_body (fun i => lift (build device i)) Text.report).
    rewrite Erun, print_pubish_one. reflexivity.
  - cbn [tx with_text]. exact Etx.
  - cbn [published with_text]. rewrite Epub. reflexivity.
Qed.

Lemma text_read_output_frame (device i : Z) :
  is_byte device ->
  Text.builst_read_output device i = Ok (addr_frame device i).
Proof.
  intros Hd. unfold Text.builst_read_output. cbv zeta.
  apply (build_read_addr device i Hd).
Qed.

Lemma text_read_input_frame (device i : Z) :
  is_byte device ->
  Text.build_read_input device i = Ok (addr_frame device (0x0080 + i)).
Proof.
  intros Hd. apply (build_read_addr device (0x0080 + i) Hd).
Qed.

(** X14. In the textual bridge [status out] words its channel lines
    exactly like [status inp].  When every reply is empty or at least five
    bytes long, each command publishes one text: the lines gathered before
    the loop followed by one line per channel reading Input i is ON,
    Input i is OFF or Input i: No response (timeout), also for the outputs.
    For the same replies the channel lines of the two reports are the
    same; the reports differ in the lines gathered before the loop, which
    name the command, and the commands differ in the registers they ask
    for (i for the outputs, 0x0080 + i for the inputs). *)
Theorem text_status_out_reads_like_status_inp
        (device : Z) (messages_out messages_inp : list string) (w : World) :
  is_byte device ->
  Forall decodable (poll_replies 8 (script w)) ->
  (forall ch, Text.builst_read_output device ch = Ok (addr_frame device ch)) /\
  (forall ch, Text.build_read_input device ch
              = Ok (addr_frame device (0x0080 + ch))) /\
  exists wo wi,
    Text.do_status_out device messages_out w = (Ok tt, wo) /\
    Text.do_status_inp device messages_inp w = (Ok tt, wi) /\
    published wo
    = published w
      ++ [PText (join_lines
                   (messages_out
                    ++ map text_status_line
                           (combine [1; 2; 3; 4; 5; 6; 7; 8]
                                    (poll_replies 8 (script w)))))] /\
    published wi
    = published w
      ++ [PText (join_lines
                   (messages_inp
                    ++ map text_status_line
                           (combine [1; 2; 3; 4; 5; 6; 7; 8]
                                    (poll_replies 8 (script w)))))] /\
    tx wo = tx w ++ map (fun ch => addr_frame device ch)
                        [1; 2; 3; 4; 5; 6; 7; 8] /\
    tx wi = tx w ++ map (fun ch => addr_frame device (0x0080 + ch))
                        [1; 2; 3; 4; 5; 6; 7; 8].
Proof.
  intros Hd Hr.
  split; [intros ch; apply text_read_output_frame, Hd|].
  split; [intros ch; apply text_read_input_frame, Hd|].
  destruct (text_status_loop device Text.builst_read_output (fun i => i)
                             messages_out w
                             (fun i => text_read_output_frame device i Hd) Hr)
    as (wo & Eo & To & Po).
  destruct (text_status_loop device Text.build_read_input
                             (fun i => 0x0080 + i) messages_inp w
                             (fun i => text_read_input_frame device i Hd) Hr)
    as (wi & Ei & Ti & Pi).
  exists wo, wi.
  split; [unfold Text.do_status_out; rewrite range_1_9; exact Eo|].
  split; [unfold Text.do_status_inp; rewrite range_1_9; exact Ei|].
  split; [exact Po|].
  split; [exact Pi|].
  split; [exact To | exact Ti].
Qed.

(** The two commands as the bridge runs them, each with its own first
    line. *)
Lemma text_status_out_reads_like_status_inp_witness :
  initial_messages "status out" = ["Processing command: status out"] /\
  initial_messages "status inp" = ["Processing command: status inp"] /\
  (forall ch, Text.builst_read_output 1 ch = Ok (addr_frame 1 ch)) /\
  (forall ch, Text.build_read_input 1 ch = Ok (addr_frame 1 (0x0080 + ch))) /\
  exists wo wi,
    Text.do_status_out 1 (initial_messages "status out") channel_3_silent
    = (Ok tt, wo) /\
    Text.do_status_inp 1 (initial_messages "status inp") channel_3_silent
    = (Ok tt, wi) /\
    published wo
    = published channel_3_silent
      ++ [PText (join_lines
                   (initial_messages "status out"
                    ++ map text_status_line
                           (combine [1; 2; 3; 4; 5; 6; 7; 8]
                                    (poll_replies 8 (script channel_3_silent)))))] /\
    published wi
    = published channel_3_silent
      ++ [PText (join_lines
                   (initial_messages "status inp"
                    ++ map text_status_line
                           (combine [1; 2; 3; 4; 5; 6; 7; 8]
                                    (poll_replies 8 (script channel_3_silent)))))] /\
    tx wo = tx channel_3_silent
            ++ map (fun ch => addr_frame 1 ch) [1; 2; 3; 4; 5; 6; 7; 8] /\
    tx wi = tx channel_3_silent
            ++ map (fun ch => addr_frame 1 (0x0080 + ch))
                   [1; 2; 3; 4; 5; 6; 7; 8].
Proof.
  split; [reflexivity|]. split; [reflexivity|].
  apply (text_status_out_reads_like_status_inp
           1 (initial_messages "status out") (initial_messages "status inp")
           channel_3_silent).
  - unfold is_byte. lia.
  - exact channel_3_silent_decodable.
Defined.

(** What the two commands publish when channel 3 stays silent. *)
Example text_status_reports_channel_3_silent :
  published (snd (Text.do_status_out 1 (initial_messages "status out")
                                     channel_3_silent))
  = [PText (join_lines ["Processing command: status out";
                        "Input 1 is ON"; "Input 2 is OFF";
                        "Input 3: No response (timeout)";
                        "Input 4 is ON"; "Input 5 is OFF"; "Input 6 is OFF";
                        "Input 7 is OFF"; "Input 8 is OFF"])] /\
  published (snd (Text.do_status_inp 1 (initial_messages "status inp")
                                     channel_3_silent))
  = [PText (join_lines ["Processing command: status inp";
                        "Input 1 is ON"; "Input 2 is OFF";
                        "Input 3: No response (timeout)";
                        "Input 4 is ON"; "Input 5 is OFF"; "Input 6 is OFF";
                        "Input 7 is OFF"; "Input 8 is OFF"])].
Proof. split; vm_compute; reflexivity. Qed.

(** ** The example frames *)

Lemma send_example_run (name hexframe : string) (data : list Z) (w : World) :
  hexstr_to_bytes hexframe = Ok data ->
  exists w',
    send_example (name, hexframe) w = (Ok tt, w') /\
    script w' = tl (script w) /\
    tx w' = tx w ++ [data] /\
    published w' = published w /\
    List.length (stdout w') = (List.length (stdout w) + 2)%nat.
Proof.
  intros E. unfold send_example, bind, lift. rewrite E.
  unfold print at 1. rewrite exchange_run.
  cbn [script rx tx stdout published].
  destruct (firstn 256 (hd [] (script w))) as [|x rest];
    unfold print; cbn [script rx tx stdout published];
    (eexists; split; [reflexivity|]; cbn [script tx published stdout];
     repeat split; rewrite !length_app; cbn [List.length]; lia).
Qed.

Lemma send_examples_loop (examples : list (string * string)) :
  forall frames w,
    Forall2 (fun e f => hexstr_to_bytes (snd e) = Ok f) examples frames ->
    exists w',
      for_each examples send_example w = (Ok tt, w') /\
      tx w' = tx w ++ frames /\
      published w' = published w /\
      List.length (stdout w')
      = (List.length (stdout w) + 2 * List.length examples)%nat.
Proof.
  induction examples as [|[name hexframe] examples IH]; intros frames w H.
  - inversion H; subst. exists w. cbn. rewrite app_nil_r.
    repeat split. lia.
  - inversion H as [|? f ? frames' Hf Hrest]; subst. cbn [snd] in Hf.
    destruct (send_example_run name hexframe f w Hf)
      as (w1 & E1 & _ & T1 & P1 & L1).
    destruct (IH frames' w1 Hrest) as (w' & E & T & P & L).
    exists w'. split.
    + unfold for_each in *. cbn [for_acc]. unfold bind at 1.
      rewrite E1. exact E.
    + split; [rewrite T, T1, <- app_assoc; reflexivity|].
      split; [rewrite P, P1; reflexivity|].
      rewrite L, L1. cbn [List.length]. lia.
Qed.

(** X15. The loop that closes the interactive program sends the four
    frames of [EXAMPLES] in the order of the table, prints two lines for
    each and fails on no reply.  Each of the four frames carries the
    checksum [crc16] computes for it.  The first two are the frames
    [build_relay_command] builds for device 1, channel 1, on and off; the
    third, read_ch1, is the frame the JSON bridge's [build_read_output]
    builds for output 1, and not the frame the interactive program's own
    [builst_read_output] builds for output 1, which asks for register 2. *)
Theorem send_examples_sends_the_table (w : World) :
  (exists w',
      send_examples w = (Ok tt, w') /\
      tx w' = tx w
              ++ [[0x01; 0x06; 0x00; 0x01; 0x01; 0x00; 0xD9; 0x9A];
                  [0x01; 0x06; 0x00; 0x01; 0x02; 0x00; 0xD9; 0x6A];
                  [0x01; 0x03; 0x00; 0x01; 0x00; 0x01; 0xD5; 0xCA];
                  [0x01; 0x06; 0x00; 0xFD; 0x00; 0x00; 0x18; 0x3A]] /\
      published w' = published w /\
      List.length (stdout w') = (List.length (stdout w) + 8)%nat) /\
  Forall (fun e => exists f, hexstr_to_bytes (snd e) = Ok f /\
                             List.length f = 8%nat /\
                             crc16 (firstn 6 f) = Ok (skipn 6 f))
         EXAMPLES /\
  fst (Cli.build_relay_command 1 1 "on" w)
  = hexstr_to_bytes "01 06 00 01 01 00 D9 9A" /\
  fst (Cli.build_relay_command 1 1 "off" w)
  = hexstr_to_bytes "01 06 00 01 02 00 D9 6A" /\
  Json.build_read_output 1 1 = hexstr_to_bytes "01 03 00 01 00 01 D5 CA" /\
  Cli.builst_read_output 1 1 = hexstr_to_bytes "01 03 00 02 00 01 25 CA" /\
  Cli.builst_read_output 1 1 <> hexstr_to_bytes "01 03 00 01 00 01 D5 CA".
Proof.
  split.
  { destruct (send_examples_loop EXAMPLES
                [[0x01; 0x06; 0x00; 0x01; 0x01; 0x00; 0xD9; 0x9A];
                 [0x01; 0x06; 0x00; 0x01; 0x02; 0x00; 0xD9; 0x6A];
                 [0x01; 0x03; 0x00; 0x01; 0x00; 0x01; 0xD5; 0xCA];
                 [0x01; 0x06; 0x00; 0xFD; 0x00; 0x00; 0x18; 0x3A]] w)
      as (w' & E & T & P & L).
    - unfold EXAMPLES.
      repeat (apply Forall2_cons; [vm_compute; reflexivity|]).
      apply Forall2_nil.
    - exists w'. repeat split; assumption. }
  split.
  { unfold EXAMPLES.
    repeat (apply Forall_cons;
            [eexists; split; [vm_compute; reflexivity|];
             split; vm_compute; reflexivity|]).
    apply Forall_nil. }
  split.
  { rewrite (cli_build_relay_command_ok 1 1 "on" w);
      [vm_compute; reflexivity | unfold is_byte; lia | lia | left; reflexivity]. }
  split.
  { rewrite (cli_build_relay_command_ok 1 1 "off" w);
      [vm_compute; reflexivity | unfold is_byte; lia | lia | right; reflexivity]. }
  split; [vm_compute; reflexivity|].
  split; [vm_compute; reflexivity|].
  vm_compute. discriminate.
Qed.

(** ** What the read handling does not look at *)

(** X16. Of a reply of five bytes or more the read handling decides on
    the byte at offset 4 and nothing else: two replies that agree on that
    byte are read alike by the JSON bridge's state expression, by the
    status polls of the interactive program and by the reports of the
    textual bridge, whatever their device address, function code, length
    and checksum.  The interactive program's single input read prints the
    hex dump of the whole reply first, so its output differs in that line;
    the ON/OFF line that follows is the same for the two replies. *)
Theorem read_handling_ignores_all_but_byte_4 (resp resp' : list Z) :
  (5 <= List.length resp)%nat -> (5 <= List.length resp')%nat ->
  nth_error resp 4 = nth_error resp' 4 ->
  Json.state_of resp = Json.state_of resp' /\
  (forall what i w, Cli.report what i resp w = Cli.report what i resp' w) /\
  (forall messages i w,
      Text.report messages i resp w = Text.report messages i resp' w) /\
  (forall inp w, Text.report_in inp resp w = Text.report_in inp resp' w) /\
  (forall inp w,
      exists line,
        Cli.report_in inp resp w
        = (Ok tt, with_stdout w [("<- Response: " ++ hexdump resp)%string;
                                 line]) /\
        Cli.report_in inp resp' w
        = (Ok tt, with_stdout w [("<- Response: " ++ hexdump resp')%string;
                                 line]) /\
        (line = ("Input " ++ dec inp ++ " is ON")%string \/
         line = ("Input " ++ dec inp ++ " is OFF")%string)).
Proof.
  intros H H' E.
  destruct (index_long resp H) as (b & Eb & _).
  assert (Eb' : nth_error resp' 4 = Some b) by (rewrite <- E; exact Eb).
  split; [rewrite (json_state_of_long _ _ Eb), (json_state_of_long _ _ Eb');
          reflexivity|].
  split; [intros; rewrite (cli_report_long _ _ _ _ _ Eb),
                          (cli_report_long _ _ _ _ _ Eb'); reflexivity|].
  split; [intros; rewrite (text_report_long _ _ _ _ _ Eb),
                          (text_report_long _ _ _ _ _ Eb'); reflexivity|].
  split; [intros; rewrite (text_report_in_long _ _ _ _ Eb),
                          (text_report_in_long _ _ _ _ Eb'); reflexivity|].
  intros inp w. exists (on_off_line "Input" inp b).
  split; [apply cli_report_in_long, Eb|].
  split; [apply cli_report_in_long, Eb'|].
  unfold on_off_line. destruct (b =? 1); [left | right]; reflexivity.
Qed.

Lemma read_handling_ignores_all_but_byte_4_witness :
  Json.state_of [0x01; 0x03; 0x02; 0x00; 0x01; 0x79; 0x84]
  = Json.state_of [0x07; 0x83; 0x02; 0xFF; 0x01] /\
  (forall what i w,
      Cli.report what i [0x01; 0x03; 0x02; 0x00; 0x01; 0x79; 0x84] w
      = Cli.report what i [0x07; 0x83; 0x02; 0xFF; 0x01] w) /\
  (forall messages i w,
      Text.report messages i [0x01; 0x03; 0x02; 0x00; 0x01; 0x79; 0x84] w
      = Text.report messages i [0x07; 0x83; 0x02; 0xFF; 0x01] w) /\
  (forall inp w,
      Text.report_in inp [0x01; 0x03; 0x02; 0x00; 0x01; 0x79; 0x84] w
      = Text.report_in inp [0x07; 0x83; 0x02; 0xFF; 0x01] w) /\
  (forall inp w,
      exists line,
        Cli.report_in inp [0x01; 0x03; 0x02; 0x00; 0x01; 0x79; 0x84] w
        = (Ok tt,
           with_stdout w
             [("<- Response: "
               ++ hexdump [0x01; 0x03; 0x02; 0x00; 0x01; 0x79; 0x84])%string;
              line]) /\
        Cli.report_in inp [0x07; 0x83; 0x02; 0xFF; 0x01] w
        = (Ok tt,
           with_stdout w
             [("<- Response: "
               ++ hexdump [0x07; 0x83; 0x02; 0xFF; 0x01])%string;
              line]) /\
        (line = ("Input " ++ dec inp ++ " is ON")%string \/
         line = ("Input " ++ dec inp ++ " is OFF")%string)).
Proof.
  apply (read_handling_ignores_all_but_byte_4
           [0x01; 0x03; 0x02; 0x00; 0x01; 0x79; 0x84]
           [0x07; 0x83; 0x02; 0xFF; 0x01]);
    [simpl; lia | simpl; lia | reflexivity].
Defined.
